(** * External listings adapter: a shallow embedding and its properties

    The development follows [app/services/external_listings_service.py]
    together with the schema classes, the district name cache and the
    exception classes it uses.  Python objects are modelled by the values a
    JSON decoder produces, exceptions by an error monad, dictionaries by
    finite maps.  The interpreter's library (datetime, pydantic's scalar
    validators, [str.capitalize]) is kept behind two interfaces, each with
    one executable instance. *)

From Stdlib Require Import ZArith String Ascii List Bool Lia.
From Stdlib Require Import Floats.SpecFloat.
From stdpp Require Import base option list gmap strings.

#[local] Set Warnings "-register-all".
#[local] Open Scope Z_scope.

(** ** Python values and exceptions *)

(** The values [resp.json()] can return, which are also the values stored in
    the query-parameter dictionary ([Dict[str, Any]]). *)
Inductive pyval : Type :=
  | PNone
  | PBool (b : bool)
  | PInt (n : Z)
  | PFloat (x : spec_float)
  | PStr (s : string)
  | PList (xs : list pyval)
  | PDict (d : gmap string pyval).

(** Exception classes that occur in the adapter.  All of them derive from
    [Exception]; [TimeoutException] is httpx's, [TransportError] stands for
    every other httpx failure, [ApiException] carries its message. *)
Inductive exn : Type :=
  | AttributeError
  | KeyError
  | TypeError
  | IndexError
  | ValueError
  | OverflowError
  | ValidationError
  | SQLAlchemyError
  | TimeoutException
  | TransportError
  | ApiException (message : string).

Inductive result (A : Type) : Type :=
  | Ok (a : A)
  | Raise (e : exn).
Arguments Ok {A} a.
Arguments Raise {A} e.

#[global] Instance result_ret : MRet result := fun _ a => Ok a.
#[global] Instance result_bind : MBind result := fun _ _ f m =>
  match m with
  | Ok a => f a
  | Raise e => Raise e
  end.

(** [try: body / except Exception as e: handler e]. *)
Definition try_except {A} (body : result A) (handler : exn -> result A) : result A :=
  match body with
  | Ok a => Ok a
  | Raise e => handler e
  end.

(** The clause [except httpx.TimeoutException]. *)
Definition is_TimeoutException (e : exn) : bool :=
  match e with
  | TimeoutException => true
  | _ => false
  end.

(** Truth value of an object, as [if x:] and [x or y] test it. *)
Definition truthy (v : pyval) : bool :=
  match v with
  | PNone => false
  | PBool b => b
  | PInt n => negb (n =? 0)
  | PFloat (S754_zero _) => false
  | PFloat _ => true
  | PStr s => negb (String.eqb s "")
  | PList xs => match xs with [] => false | _ => true end
  | PDict d => negb (bool_decide (d = ∅))
  end.

Definition py_or (a b : pyval) : pyval := if truthy a then a else b.

(** [obj.get(key, default)]: only a dict has the method. *)
Definition py_get (obj : pyval) (key : string) (dflt : pyval) : result pyval :=
  match obj with
  | PDict d => Ok (default dflt (d !! key))
  | _ => Raise AttributeError
  end.

(** [d[key]] on a dictionary with string keys. *)
Definition dict_getitem (d : gmap string pyval) (key : string) : result pyval :=
  match d !! key with
  | Some v => Ok v
  | None => Raise KeyError
  end.

(** [obj[0]]. *)
Definition py_first (obj : pyval) : result pyval :=
  match obj with
  | PList (x :: _) => Ok x
  | PList [] => Raise IndexError
  | PStr (String c _) => Ok (PStr (String c ""))
  | PStr EmptyString => Raise IndexError
  | PDict _ => Raise KeyError
  | _ => Raise TypeError
  end.

(** [for x in obj]: the items visited, or [TypeError] when [obj] is not
    iterable.  A dictionary yields its keys. *)
Definition py_iter (obj : pyval) : result (list pyval) :=
  match obj with
  | PList xs => Ok xs
  | PStr s => Ok ((fun c => PStr (String c "")) <$> list_ascii_of_string s)
  | PDict d => Ok (PStr <$> (map_to_list d).*1)
  | _ => Raise TypeError
  end.

(** Lookup in a dictionary whose keys are strings, with a default
    ([mapping.get(key, default)]); a list or a dict cannot be hashed. *)
Definition table_get (table : gmap string Z) (key : pyval) (dflt : Z) : result Z :=
  match key with
  | PStr s => Ok (default dflt (table !! s))
  | PList _ | PDict _ => Raise TypeError
  | _ => Ok dflt
  end.

(** ** Schemas ([app/schemas/api_schemas.py]) *)

Module LoadAdvertsDirection.
Definition Prev : Z := 1.
Definition Next : Z := 2.
Definition Latest : Z := 3.
End LoadAdvertsDirection.

Module ReadAdvertsRequest.
Record t : Type := {
  AdvertId : option Z;
  Direction : Z;
  LastViewId : option Z
}.
End ReadAdvertsRequest.

Module RangeModel.
Record t : Type := {
  from_ : option Z;
  to : option Z
}.

(** [RangeModel(from_=..., to=...)]: an argument that is not passed takes
    the default of its [Field]. *)
Definition new (from_arg to_arg : option (option Z)) : t :=
  {| from_ := default (Some 0) from_arg;
     to := default (Some (2 ^ 31 - 1)) to_arg |}.
End RangeModel.

Module FilterModel.
Record t : Type := {
  CountryId : Z;
  RegionId : Z;
  Districts : option (list Z);
  Types : option (list Z);
  Rooms : option (list Z);
  Agency : bool;
  Area : option RangeModel.t;
  Price : option RangeModel.t
}.
End FilterModel.

Module AdvertModel.
Record t : Type := {
  id : Z;
  sourceId : Z;
  typeId : Z;
  url : string;
  regionId : Z;
  region : string;
  district : option string;
  title : string;
  photos : list string;
  rooms : option Z;
  area : option spec_float;
  price : option spec_float;
  currency : string;
  extPrice : option string;
  agency : bool;
  date : option Z;
  createdAt : option Z;
  validTo : option Z
}.
End AdvertModel.

Module DistrictModel.
Record t : Type := {
  id : Z;
  name : string;
  regionId : Z
}.
End DistrictModel.

(** ** Database rows ([app/models/db_models.py]) *)

Module DbDistrict.
Record t : Type := {
  id : Z;
  region_id : Z;
  name : string
}.
End DbDistrict.

Module DbRegion.
(** [names] is a nullable array column whose entries may be NULL. *)
Record t : Type := {
  id : Z;
  names : option (list (option string))
}.
End DbRegion.

(** What the two stored functions return when they are called; [Raise] when
    the session fails. *)
Record AsyncSession : Type := {
  dic_region_districts_load : result (list DbDistrict.t);
  dic_regions_load : result (list DbRegion.t)
}.

(** Truth value of an optional list of integers ([if filter_model.Types:]). *)
Definition truthy_ints (l : option (list Z)) : bool :=
  match l with
  | Some (_ :: _) => true
  | _ => false
  end.

(** Truth value of an optional integer ([if pagination.AdvertId:]). *)
Definition truthy_int (n : option Z) : bool :=
  match n with
  | Some n => negb (n =? 0)
  | None => false
  end.

(** ** District name cache ([app/services/district_mapping_service.py]) *)

Module DistrictMappingService.
Record t : Type := {
  _district_cache : gmap Z string;
  _cache_loaded : bool;
  _api_models : list DistrictModel.t
}.

Definition init : t :=
  {| _district_cache := ∅; _cache_loaded := false; _api_models := [] |}.

Definition _load_district_cache (db : AsyncSession) (self : t) : t :=
  match dic_region_districts_load db with
  | Ok districts =>
      {| _district_cache :=
           foldl (fun cache d => <[DbDistrict.id d := DbDistrict.name d]> cache)
                 (_district_cache self) districts;
         _cache_loaded := true;
         _api_models :=
           (fun d => {| DistrictModel.id := DbDistrict.id d;
                        DistrictModel.name := DbDistrict.name d;
                        DistrictModel.regionId := DbDistrict.region_id d |})
             <$> districts |}
  | Raise _ =>
      {| _district_cache := _district_cache self;
         _cache_loaded := true;
         _api_models := _api_models self |}
  end.

(** Returns the names and the service after the call. *)
Definition get_district_names (db : AsyncSession) (self : t) (district_ids : list Z)
  : list string * t :=
  let self := if _cache_loaded self then self else _load_district_cache db self in
  (omap (fun district_id =>
           match _district_cache self !! district_id with
           | Some name => if String.eqb name "" then None else Some name
           | None => None
           end) district_ids,
   self).
End DistrictMappingService.

(** ** The interpreter's library *)

(** A naive [datetime] object. *)
Record datetime : Type := {
  year : Z;
  month : Z;
  day : Z;
  hour : Z;
  minute : Z;
  second : Z;
  microsecond : Z
}.

(** A [datetime] has neither [__bool__] nor [__len__]: it is always true. *)
Definition datetime_truthy (d : datetime) : bool := true.

(** The functions of the standard library the adapter calls.
    [strptime s fmt] is [datetime.strptime(s, fmt)], raising [ValueError] when
    [s] does not match; [epoch_ms d] is [int(d.timestamp() * 1000)], which
    depends on the time zone of the host and raises for a date the platform
    cannot convert; [capitalize] is [str.capitalize]. *)
Class PyLib : Type := {
  strptime : string -> string -> result datetime;
  epoch_ms : datetime -> result Z;
  capitalize : string -> string
}.

(** pydantic's validators for the scalar field types.  An input that already
    has the exact type of the field is returned as it is; what happens to any
    other input (coercion or [ValidationError]) is left to the instance. *)
Class Pydantic : Type := {
  validate_int : pyval -> result Z;
  validate_float : pyval -> result spec_float;
  validate_str : pyval -> result string;
  validate_bool : pyval -> result bool;
  validate_int_exact : forall n, validate_int (PInt n) = Ok n;
  validate_float_exact : forall x, validate_float (PFloat x) = Ok x;
  validate_str_exact : forall s, validate_str (PStr s) = Ok s;
  validate_bool_exact : forall b, validate_bool (PBool b) = Ok b
}.

(** [Optional[T]]: [None] is accepted as it is. *)
Definition validate_optional {A} (validate : pyval -> result A) (v : pyval)
  : result (option A) :=
  match v with
  | PNone => Ok None
  | _ => a ← validate v; Ok (Some a)
  end.

(** [List[T]] on a Python list. *)
Definition validate_list {A} (validate : pyval -> result A) (v : pyval)
  : result (list A) :=
  match v with
  | PList xs => mapM validate xs
  | _ => Raise ValidationError
  end.

(** ** HTTP client *)

Record Response : Type := {
  status_code : Z;
  json : result pyval
}.

(** [await client.get(url, params=params)]. *)
Definition AsyncClient : Type := string -> gmap string pyval -> result Response.

(** ** The service ([app/services/external_listings_service.py]) *)

Inductive BuildingType : Type :=
  | BLOCK
  | APARTMENT_BUILDING
  | TENEMENT
  | HOUSE
  | INFILL
  | RIBBON
  | LOFT
  | WOLNOSTOJACY
  | OTHER.

Definition value (bt : BuildingType) : string :=
  match bt with
  | BLOCK => "BLOCK"
  | APARTMENT_BUILDING => "APARTMENT_BUILDING"
  | TENEMENT => "TENEMENT"
  | HOUSE => "HOUSE"
  | INFILL => "INFILL"
  | RIBBON => "RIBBON"
  | LOFT => "LOFT"
  | WOLNOSTOJACY => "WOLNOSTOJACY"
  | OTHER => "OTHER"
  end.

Definition source_mapping : gmap string Z :=
  list_to_map [("olx", 1); ("otodom", 2); ("gratka", 5);
               ("domiporta", 4); ("morizon", 3); ("gumtree", 6)].

Definition type_mapping : gmap string Z :=
  list_to_map [("RENT", 1); ("SALE", 2)].

Definition reverse_building_type_mapping : gmap Z (list BuildingType) :=
  list_to_map
    [(1, [OTHER]);
     (2, [BLOCK; APARTMENT_BUILDING; INFILL; RIBBON; LOFT]);
     (3, [TENEMENT; HOUSE; WOLNOSTOJACY])].

Record ExternalListingsService : Type := {
  base_url : string;
  endpoint : string;
  timeout : Z;
  db : AsyncSession;
  district_mapper : DistrictMappingService.t
}.

(** The comprehension that expands the type filter. *)
Definition expand_types (types : list Z) : list string :=
  t ← types;
  match reverse_building_type_mapping !! t with
  | Some bts => value <$> bts
  | None => []
  end.

(** The blocks of [_build_query_filters], each as the update it makes to
    [params]. *)

(** [if filter_model.Types: params["building_type"] = [...]]. *)
Definition types_param (types : option (list Z)) (params : gmap string pyval)
  : gmap string pyval :=
  if truthy_ints types then
    <["building_type" := PList (PStr <$> expand_types (default [] types))]> params
  else params.

(** The price block and the area block: the bounds of one range, stored under
    the two given keys. *)
Definition range_params (min_key max_key : string) (range : option RangeModel.t)
    (params : gmap string pyval) : gmap string pyval :=
  match range with
  | Some r =>
      let params :=
        match RangeModel.from_ r with
        | Some lo => <[min_key := PInt lo]> params
        | None => params
        end in
      match RangeModel.to r with
      | Some hi => <[max_key := PInt hi]> params
      | None => params
      end
  | None => params
  end.

(** [if filter_model.Rooms and len(filter_model.Rooms) > 0]. *)
Definition rooms_param (rooms : option (list Z)) (params : gmap string pyval)
  : gmap string pyval :=
  if truthy_ints rooms then <["rooms" := PList (PInt <$> default [] rooms)]> params
  else params.

(** [if filter_model.Agency is not None and filter_model.Agency is True]. *)
Definition agency_param (agency : bool) (params : gmap string pyval)
  : gmap string pyval :=
  if agency then <["is_business" := PBool false]> params else params.

(** The district block.  The cache filled by the call is not part of the
    result. *)
Definition district_param (db : AsyncSession) (district_mapper : DistrictMappingService.t)
    (districts : option (list Z)) (params : gmap string pyval) : gmap string pyval :=
  if truthy_ints districts then
    let district_names :=
      (DistrictMappingService.get_district_names db district_mapper
         (default [] districts)).1 in
    match district_names with
    | [] => params
    | _ => <["district" := PList (PStr <$> district_names)]> params
    end
  else params.

(** [reg.names[-1]] followed by [.capitalize()]. *)
Definition last_name_capitalized `{PyLib} (reg : DbRegion.t) : result string :=
  match DbRegion.names reg with
  | None => Raise TypeError
  | Some names =>
      match last names with
      | None => Raise IndexError
      | Some None => Raise AttributeError
      | Some (Some region_name) => Ok (capitalize region_name)
      end
  end.

(** The loop over the regions, left at the first region with the id. *)
Fixpoint region_loop `{PyLib} (regions : list DbRegion.t) (region_id : Z)
    (params : gmap string pyval) : result (gmap string pyval) :=
  match regions with
  | [] => Ok params
  | reg :: rest =>
      if DbRegion.id reg =? region_id then
        region_name ← last_name_capitalized reg;
        Ok (<["city" := PList [PStr region_name]]> params)
      else region_loop rest region_id params
  end.

(** [if filter_model.RegionId:] and the block under it. *)
Definition region_param `{PyLib} (db : AsyncSession) (region_id : Z)
    (params : gmap string pyval) : result (gmap string pyval) :=
  if negb (region_id =? 0) then
    regions ← dic_regions_load db;
    region_loop regions region_id params
  else Ok params.

Section Service.
Context `{PyLib}.
Variable self : ExternalListingsService.

Definition _build_query_filters (filter_model : option FilterModel.t)
    (pagination : ReadAdvertsRequest.t) : result (gmap string pyval) :=
  let params : gmap string pyval := ∅ in
  let params := <["offer_type" := PStr "RENT"]> params in
  (* an attribute of [None] *)
  filter_model ← from_option Ok (Raise AttributeError) filter_model;
  let params := types_param (FilterModel.Types filter_model) params in
  (* print(params["building_type"]) *)
  _ ← dict_getitem params "building_type";
  let params := range_params "min_price" "max_price" (FilterModel.Price filter_model) params in
  let params := range_params "min_area" "max_area" (FilterModel.Area filter_model) params in
  let params := rooms_param (FilterModel.Rooms filter_model) params in
  let params := agency_param (FilterModel.Agency filter_model) params in
  let params :=
    district_param (db self) (district_mapper self)
      (FilterModel.Districts filter_model) params in
  region_param (db self) (FilterModel.RegionId filter_model) params.

Definition _build_query_params_missed (filter_model : option FilterModel.t)
    (pagination : ReadAdvertsRequest.t) : result (gmap string pyval) :=
  params ← _build_query_filters filter_model pagination;
  if truthy_int (ReadAdvertsRequest.LastViewId pagination) then
    Ok (<["id" := PInt (default 0 (ReadAdvertsRequest.LastViewId pagination))]> params)
  else Ok params.

Definition _build_query_params_pagination (filter_model : option FilterModel.t)
    (pagination : ReadAdvertsRequest.t) : result (gmap string pyval) :=
  params ← _build_query_filters filter_model pagination;
  let params := <["limit" := PInt 10]> params in
  if truthy_int (ReadAdvertsRequest.AdvertId pagination) then
    let params :=
      <["direction" :=
          PStr (if ReadAdvertsRequest.Direction pagination =? LoadAdvertsDirection.Prev
                then "after" else "before")]> params in
    Ok (<["id" := PInt (default 0 (ReadAdvertsRequest.AdvertId pagination))]> params)
  else if ReadAdvertsRequest.Direction pagination =? LoadAdvertsDirection.Latest then
    Ok (<["direction" := PStr "latest"]> params)
  else Ok params.

(** The handlers that close [get_missed] and [get_listings]. *)
Definition outer_handler {A} (e : exn) : result A :=
  if is_TimeoutException e then Raise (ApiException "External listings API timeout")
  else Raise (ApiException "Internal error in listings service").

Definition get_missed (client : AsyncClient) (filter_model : option FilterModel.t)
    (pagination : ReadAdvertsRequest.t) : result pyval :=
  try_except
    (params_missed ← _build_query_params_missed filter_model pagination;
     total ←
       try_except
         (resp ← client (base_url self +:+ "/api/v1/listings/new/count") params_missed;
          if status_code resp =? 200 then
            data ← json resp;
            py_get data "total" (PInt 0)
          else Ok (PInt 0))
         (fun _ => Ok (PInt 0));
     Ok total)
    outer_handler.

Definition get_listings (client : AsyncClient) (filter_model : option FilterModel.t)
    (pagination : ReadAdvertsRequest.t) : result pyval :=
  try_except
    (params_pagination ← _build_query_params_pagination filter_model pagination;
     results ←
       try_except
         (resp ← client (base_url self +:+ endpoint self) params_pagination;
          if status_code resp =? 200 then
            data ← json resp;
            py_get data "items" (PList [])
          else Ok (PList []))
         (fun _ => Ok (PList []));
     Ok results)
    outer_handler.
End Service.

(** What [datetime.utcnow()] returns in each of the three [_parse_datetime]
    calls of one [map_listing_to_advert], should the call read the clock. *)
Record Clock : Type := {
  now_created : datetime;
  now_valid_to : datetime;
  now_parsed : datetime
}.

Definition formats : list string :=
  ["%Y-%m-%dT%H:%M:%S.%fZ"; "%Y-%m-%dT%H:%M:%SZ"; "%Y-%m-%d %H:%M:%S"; "%Y-%m-%d"].

Section Mapper.
Context `{PyLib} `{Pydantic}.

(** [datetime.strptime] on any object: a string is required. *)
Definition py_strptime (datetime_str : pyval) (fmt : string) : result datetime :=
  match datetime_str with
  | PStr s => strptime s fmt
  | _ => Raise TypeError
  end.

(** The loop over the formats: [Ok None] when it runs to its end, [Raise]
    for an exception other than [ValueError]. *)
Fixpoint parse_loop (datetime_str : pyval) (fmts : list string)
  : result (option datetime) :=
  match fmts with
  | [] => Ok None
  | fmt :: rest =>
      match py_strptime datetime_str fmt with
      | Ok d => Ok (Some d)
      | Raise ValueError => parse_loop datetime_str rest
      | Raise e => Raise e
      end
  end.

Definition _parse_datetime (utcnow : datetime) (datetime_str : pyval) : datetime :=
  if negb (truthy datetime_str) then utcnow
  else
    match parse_loop datetime_str formats with
    | Ok (Some d) => d
    | Ok None => utcnow
    | Raise _ => utcnow
    end.

(** The body of the [try] block of [map_listing_to_advert]. *)
Definition map_listing_to_advert_try (clock : Clock) (listing : pyval)
  : result AdvertModel.t :=
  photos_urls ← py_get listing "photos_urls" PNone;
  photos ←
    (if truthy photos_urls then
       urls ← py_get listing "photos_urls" (PList []);
       first ← py_first urls;
       Ok (PList [first])
     else Ok (PList []));
  created_str ← py_get listing "created_time" PNone;
  let created_time := _parse_datetime (now_created clock) created_str in
  valid_to_str ← py_get listing "valid_to_time" PNone;
  let valid_to_time := _parse_datetime (now_valid_to clock) valid_to_str in
  parsed_str ← py_get listing "parsed_at" PNone;
  let parsed_at := _parse_datetime (now_parsed clock) parsed_str in
  source ← py_get listing "source" (PStr "unknown");
  source_id ← table_get source_mapping source 0;
  offer_type ← py_get listing "offer_type" (PStr "RENT");
  type_id ← table_get type_mapping offer_type 1;
  (* the arguments of the constructor, in the order they are written *)
  a_id ← py_get listing "id" (PInt 0);
  a_url ← py_get listing "url" (PStr "");
  a_regionId ← py_get listing "region_id" (PInt 0);
  city ← py_get listing "city" (PStr "");
  a_region ← (if truthy city then Ok city else py_get listing "region" (PStr ""));
  district ← py_get listing "district" (PStr "");
  let a_district := py_or district (PStr "") in
  a_title ← py_get listing "title" (PStr "");
  a_rooms ← py_get listing "rooms" (PInt 0);
  a_area ← py_get listing "area_m2" PNone;
  a_price ← py_get listing "price" PNone;
  a_currency ← py_get listing "currency_code" (PStr "zl");
  a_agency ← py_get listing "is_business" (PBool true);
  a_date ← epoch_ms parsed_at;
  a_createdAt ← epoch_ms created_time;
  a_validTo ←
    (if datetime_truthy valid_to_time then epoch_ms valid_to_time
     else epoch_ms created_time);
  (* validation of the fields by [AdvertModel] *)
  v_id ← validate_int a_id;
  v_sourceId ← validate_int (PInt source_id);
  v_typeId ← validate_int (PInt type_id);
  v_url ← validate_str a_url;
  v_regionId ← validate_int a_regionId;
  v_region ← validate_str a_region;
  v_district ← validate_optional validate_str a_district;
  v_title ← validate_str a_title;
  v_photos ← validate_list validate_str photos;
  v_rooms ← validate_optional validate_int a_rooms;
  v_area ← validate_optional validate_float a_area;
  v_price ← validate_optional validate_float a_price;
  v_currency ← validate_str a_currency;
  v_extPrice ← validate_optional validate_str PNone;
  v_agency ← validate_bool a_agency;
  v_date ← validate_optional validate_int (PInt a_date);
  v_createdAt ← validate_optional validate_int (PInt a_createdAt);
  v_validTo ← validate_optional validate_int (PInt a_validTo);
  Ok {| AdvertModel.id := v_id;
        AdvertModel.sourceId := v_sourceId;
        AdvertModel.typeId := v_typeId;
        AdvertModel.url := v_url;
        AdvertModel.regionId := v_regionId;
        AdvertModel.region := v_region;
        AdvertModel.district := v_district;
        AdvertModel.title := v_title;
        AdvertModel.photos := v_photos;
        AdvertModel.rooms := v_rooms;
        AdvertModel.area := v_area;
        AdvertModel.price := v_price;
        AdvertModel.currency := v_currency;
        AdvertModel.extPrice := v_extPrice;
        AdvertModel.agency := v_agency;
        AdvertModel.date := v_date;
        AdvertModel.createdAt := v_createdAt;
        AdvertModel.validTo := v_validTo |}.

(** [None] is the value returned by the [except] clause. *)
Definition map_listing_to_advert (clock : Clock) (listing : pyval)
  : option AdvertModel.t :=
  match map_listing_to_advert_try clock listing with
  | Ok advert => Some advert
  | Raise _ => None
  end.

(** [clock i] is the clock of the record visited at position [i]. *)
Definition get_listings_mapped (self : ExternalListingsService) (client : AsyncClient)
    (clock : nat -> Clock) (filter_model : option FilterModel.t)
    (pagination : ReadAdvertsRequest.t) : list AdvertModel.t :=
  match
    (listings ← get_listings self client filter_model pagination;
     items ← py_iter listings;
     Ok (omap id (imap (fun i listing => map_listing_to_advert (clock i) listing) items)))
  with
  | Ok mapped_adverts => mapped_adverts
  | Raise _ => []
  end.
End Mapper.

(** ** An executable instance of the interpreter's library

    [datetime.strptime] follows CPython's [_strptime]: the format is turned
    into a regular expression, matched case-insensitively from the start of
    the string with backtracking, and the whole string must be consumed.  The
    instance covers ASCII input and the directives the adapter uses. *)
Module Strptime.
Inductive directive : Type := dY | dm | dd | dH | dM | dS | df.

Inductive token : Type :=
  | Dir (d : directive)
  | Spaces
  | Lit (c : ascii).

Definition is_space (c : ascii) : bool :=
  let n := Z.of_nat (nat_of_ascii c) in
  (n =? 32) || ((9 <=? n) && (n <=? 13)) || ((28 <=? n) && (n <=? 31)).

Definition lower (c : ascii) : ascii :=
  let n := nat_of_ascii c in
  if ((65 <=? n) && (n <=? 90))%nat then ascii_of_nat (n + 32) else c.

Definition upper (c : ascii) : ascii :=
  let n := nat_of_ascii c in
  if ((97 <=? n) && (n <=? 122))%nat then ascii_of_nat (n - 32) else c.

Definition directive_of (c : ascii) : option directive :=
  if Ascii.eqb c "Y" then Some dY
  else if Ascii.eqb c "m" then Some dm
  else if Ascii.eqb c "d" then Some dd
  else if Ascii.eqb c "H" then Some dH
  else if Ascii.eqb c "M" then Some dM
  else if Ascii.eqb c "S" then Some dS
  else if Ascii.eqb c "f" then Some df
  else None.

(** The tokens of a format; [None] for a directive outside the table.  A run
    of white space in the format is one [Spaces] token. *)
Fixpoint tokenize (fmt : string) : option (list token) :=
  match fmt with
  | EmptyString => Some []
  | String "%" (String c rest) =>
      d ← directive_of c; ts ← tokenize rest; Some (Dir d :: ts)
  | String "%" EmptyString => None
  | String c rest =>
      ts ← tokenize rest;
      if is_space c then
        match ts with
        | Spaces :: _ => Some ts
        | _ => Some (Spaces :: ts)
        end
      else Some (Lit c :: ts)
  end.

(** A character class is a range of codes; an alternative of a directive is
    a sequence of classes. *)
Definition digit : Z * Z := (48, 57).
Definition range (lo hi : Z) : Z * Z := (48 + lo, 48 + hi).

Definition alternatives (d : directive) : list (list (Z * Z)) :=
  match d with
  | dY => [[digit; digit; digit; digit]]
  | dm => [[range 1 1; range 0 2]; [range 0 0; range 1 9]; [range 1 9]]
  | dd => [[range 3 3; range 0 1]; [range 1 2; digit]; [range 0 0; range 1 9];
           [range 1 9]; [(32, 32); range 1 9]]
  | dH => [[range 2 2; range 0 3]; [range 0 1; digit]; [digit]]
  | dM => [[range 0 5; digit]; [digit]]
  | dS => [[range 6 6; range 0 1]; [range 0 5; digit]; [digit]]
  | df => [[digit; digit; digit; digit; digit; digit];
           [digit; digit; digit; digit; digit];
           [digit; digit; digit; digit];
           [digit; digit; digit];
           [digit; digit];
           [digit]]
  end.

(** The text matched by a sequence of classes at the start of [s], and the
    rest of [s]. *)
Fixpoint match_classes (classes : list (Z * Z)) (s : string) : option (string * string) :=
  match classes, s with
  | [], _ => Some (EmptyString, s)
  | (lo, hi) :: classes, String c rest =>
      let n := Z.of_nat (nat_of_ascii c) in
      if (lo <=? n) && (n <=? hi) then
        '(text, rest) ← match_classes classes rest; Some (String c text, rest)
      else None
  | _ :: _, EmptyString => None
  end.

(** [\s+]: every split after a non-empty run of white space, longest first. *)
Fixpoint match_spaces (s : string) : list string :=
  match s with
  | String c rest => if is_space c then match_spaces rest ++ [rest] else []
  | EmptyString => []
  end.

(** All the ways the tokens match a prefix of [s], in the order a
    backtracking matcher tries them: the captured texts, by directive, and
    the rest of the string. *)
Fixpoint match_tokens (ts : list token) (s : string)
  : list (list (directive * string) * string) :=
  match ts with
  | [] => [([], s)]
  | Dir d :: ts =>
      alt ← alternatives d;
      match match_classes alt s with
      | Some (text, rest) =>
          '(groups, rest) ← match_tokens ts rest; [((d, text) :: groups, rest)]
      | None => []
      end
  | Spaces :: ts => rest ← match_spaces s; match_tokens ts rest
  | Lit c :: ts =>
      match s with
      | String c' rest =>
          if Ascii.eqb (lower c) (lower c') then match_tokens ts rest else []
      | EmptyString => []
      end
  end.

(** [int(text)] for a text of digits with an optional leading blank. *)
Definition int_of (text : string) : Z :=
  foldl (fun acc c =>
           let n := Z.of_nat (nat_of_ascii c) in
           if (48 <=? n) && (n <=? 57) then 10 * acc + (n - 48) else acc)
        0 (list_ascii_of_string text).

(** The digits of [%f], padded on the right to six. *)
Definition fraction_of (text : string) : Z :=
  int_of text * 10 ^ (6 - Z.of_nat (String.length text)).

Definition is_leap (y : Z) : bool :=
  ((y mod 4 =? 0) && negb (y mod 100 =? 0)) || (y mod 400 =? 0).

Definition days_in_month (y m : Z) : Z :=
  if m =? 2 then (if is_leap y then 29 else 28)
  else if (m =? 4) || (m =? 6) || (m =? 9) || (m =? 11) then 30
  else 31.

Definition group (groups : list (directive * string)) (d : directive) : option string :=
  snd <$> List.find (fun g => match fst g, d with
                              | dY, dY | dm, dm | dd, dd | dH, dH
                              | dM, dM | dS, dS | df, df => true
                              | _, _ => false
                              end) groups.

Definition field (groups : list (directive * string)) (d : directive) (dflt : Z) : Z :=
  match group groups d with
  | Some text => match d with df => fraction_of text | _ => int_of text end
  | None => dflt
  end.

Definition strptime (s fmt : string) : result datetime :=
  match tokenize fmt with
  | None => Raise ValueError
  | Some ts =>
      match match_tokens ts s with
      | (groups, EmptyString) :: _ =>
          let y := field groups dY 1900 in
          let m := field groups dm 1 in
          let d := field groups dd 1 in
          let sec := field groups dS 0 in
          if (1 <=? y) && (y <=? 9999) && (d <=? days_in_month y m) && (sec <=? 59) then
            Ok {| year := y; month := m; day := d;
                  hour := field groups dH 0;
                  minute := field groups dM 0;
                  second := sec;
                  microsecond := field groups df 0 |}
          else Raise ValueError
      | _ => Raise ValueError
      end
  end.

(** Days before the first of January of year [y], counted from year 1. *)
Definition days_before_year (y : Z) : Z :=
  let y := y - 1 in y * 365 + y / 4 - y / 100 + y / 400.

Definition days_before_month (y m : Z) : Z :=
  foldr (fun k acc => days_in_month y k + acc) 0 (seqZ 1 (m - 1)).

Definition toordinal (d : datetime) : Z :=
  days_before_year (year d) + days_before_month (year d) (month d) + day d.

(** [int(d.timestamp() * 1000)] on a host whose zone is UTC, computed
    exactly (the interpreter rounds the product to binary64 first). *)
Definition epoch_ms (d : datetime) : result Z :=
  let seconds :=
    (toordinal d - 719163) * 86400 + hour d * 3600 + minute d * 60 + second d in
  Ok (Z.quot (seconds * 1000000 + microsecond d) 1000).

(** [str.capitalize] on ASCII letters. *)
Definition capitalize (s : string) : string :=
  match s with
  | EmptyString => EmptyString
  | String c rest => String (upper c) (string_of_list_ascii (lower <$> list_ascii_of_string rest))
  end.
End Strptime.

Definition pylib_utc : PyLib :=
  {| strptime := Strptime.strptime;
     epoch_ms := Strptime.epoch_ms;
     capitalize := Strptime.capitalize |}.

(** The validators that accept a value of the exact type of the field, and an
    integer where a float is expected, and reject every other input. *)
Module Exact.
Definition validate_int (v : pyval) : result Z :=
  match v with PInt n => Ok n | _ => Raise ValidationError end.
Definition validate_float (v : pyval) : result spec_float :=
  match v with
  | PFloat x => Ok x
  | PInt n =>
      Ok (match n with
          | Z0 => S754_zero false
          | Zpos p => binary_normalize 53 1024 (Zpos p) 0 false
          | Zneg p => SFopp (binary_normalize 53 1024 (Zpos p) 0 false)
          end)
  | _ => Raise ValidationError
  end.
Definition validate_str (v : pyval) : result string :=
  match v with PStr s => Ok s | _ => Raise ValidationError end.
Definition validate_bool (v : pyval) : result bool :=
  match v with PBool b => Ok b | _ => Raise ValidationError end.
End Exact.

Definition pydantic_exact : Pydantic :=
  {| validate_int := Exact.validate_int;
     validate_float := Exact.validate_float;
     validate_str := Exact.validate_str;
     validate_bool := Exact.validate_bool;
     validate_int_exact := fun _ => eq_refl;
     validate_float_exact := fun _ => eq_refl;
     validate_str_exact := fun _ => eq_refl;
     validate_bool_exact := fun _ => eq_refl |}.

(** [params] is a dictionary one of the three builders returns for the
    request. *)
Definition built `{PyLib} (self : ExternalListingsService)
    (filter_model : option FilterModel.t) (pagination : ReadAdvertsRequest.t)
    (params : gmap string pyval) : Prop :=
  _build_query_filters self filter_model pagination = Ok params
  \/ _build_query_params_pagination self filter_model pagination = Ok params
  \/ _build_query_params_missed self filter_model pagination = Ok params.

(** ** Sample data

    Requests and host states used to run the definitions. *)
Module Sample.
Definition warsaw : DbRegion.t :=
  {| DbRegion.id := 5; DbRegion.names := Some [Some "warsaw"; Some "warszawa"] |}.

Definition session : AsyncSession :=
  {| dic_region_districts_load :=
       Ok [ {| DbDistrict.id := 11; DbDistrict.region_id := 5; DbDistrict.name := "Wola" |} ];
     dic_regions_load := Ok [warsaw] |}.

Definition service : ExternalListingsService :=
  {| base_url := "https://listings.example";
     endpoint := "/api/v1/listings";
     timeout := 30;
     db := session;
     district_mapper := DistrictMappingService.init |}.

Definition filter (types : option (list Z)) (agency : bool)
    (price area : option RangeModel.t) : FilterModel.t :=
  {| FilterModel.CountryId := 1;
     FilterModel.RegionId := 5;
     FilterModel.Districts := Some [11];
     FilterModel.Types := types;
     FilterModel.Rooms := Some [];
     FilterModel.Agency := agency;
     FilterModel.Area := area;
     FilterModel.Price := price |}.

Definition request (advert_id : option Z) (direction : Z) : ReadAdvertsRequest.t :=
  {| ReadAdvertsRequest.AdvertId := advert_id;
     ReadAdvertsRequest.Direction := direction;
     ReadAdvertsRequest.LastViewId := None |}.

(** A provider that answers every request with the given status and body. *)
Definition answers (status : Z) (body : pyval) : AsyncClient :=
  fun _ _ => Ok {| status_code := status; json := Ok body |}.

(** A client whose every request runs into the timeout. *)
Definition times_out : AsyncClient := fun _ _ => Raise TimeoutException.

Definition noon : datetime :=
  {| year := 2026; month := 11; day := 3;
     hour := 12; minute := 0; second := 0; microsecond := 250000 |}.

Definition clock : Clock :=
  {| now_created := noon; now_valid_to := noon; now_parsed := noon |}.

Definition listing (fields : list (string * pyval)) : pyval :=
  PDict (list_to_map fields).

(** A record with a creation time and no [valid_to_time]. *)
Definition flat_fields (id : Z) : list (string * pyval) :=
  [("id", PInt id); ("source", PStr "olx");
   ("created_time", PStr "2024-01-01T00:00:00Z");
   ("price", PInt 2500);
   ("photos_urls", PList [PStr "a"; PStr "b"]);
   ("is_business", PBool false)].

Definition flat (id : Z) : pyval := listing (flat_fields id).

(** A page whose second and third records cannot be mapped: one is not an
    object, the other has a number where the photo list should be. *)
Definition page : list pyval :=
  [flat 3; PStr "garbage"; listing [("id", PInt 7); ("photos_urls", PInt 5)]; flat 9].

Definition mapped (id : Z) : AdvertModel.t :=
  {| AdvertModel.id := id;
     AdvertModel.sourceId := 1;
     AdvertModel.typeId := 1;
     AdvertModel.url := "";
     AdvertModel.regionId := 0;
     AdvertModel.region := "";
     AdvertModel.district := Some "";
     AdvertModel.title := "";
     AdvertModel.photos := ["a"];
     AdvertModel.rooms := Some 0;
     AdvertModel.area := None;
     AdvertModel.price := Some (S754_finite false 5497558138880000 (-41));
     AdvertModel.currency := "zl";
     AdvertModel.extPrice := None;
     AdvertModel.agency := false;
     AdvertModel.date := Some 1793707200250;
     AdvertModel.createdAt := Some 1704067200000;
     AdvertModel.validTo := Some 1793707200250 |}.
End Sample.

Definition is_Ok {A} (r : result A) : bool :=
  match r with
  | Ok _ => true
  | Raise _ => false
  end.

(** The value under [key] in the dictionary a builder returns, [None] when
    the builder raises or the key is not set. *)
Definition param (outcome : result (gmap string pyval)) (key : string) : option pyval :=
  match outcome with
  | Ok params => params !! key
  | Raise _ => None
  end.

(** ** The rest of the district name cache

    The methods of [DistrictMappingService] next to [get_district_names]. *)

Definition get_distincts_api_models (db : AsyncSession) (self : DistrictMappingService.t)
  : list DistrictModel.t * DistrictMappingService.t :=
  let self :=
    if DistrictMappingService._cache_loaded self then self
    else DistrictMappingService._load_district_cache db self in
  (DistrictMappingService._api_models self, self).

Definition get_district_name (db : AsyncSession) (self : DistrictMappingService.t)
    (district_id : Z) : option string * DistrictMappingService.t :=
  let self :=
    if DistrictMappingService._cache_loaded self then self
    else DistrictMappingService._load_district_cache db self in
  (DistrictMappingService._district_cache self !! district_id, self).

Definition refresh_cache (db : AsyncSession) (self : DistrictMappingService.t)
  : DistrictMappingService.t :=
  DistrictMappingService._load_district_cache db
    {| DistrictMappingService._district_cache := ∅;
       DistrictMappingService._cache_loaded := false;
       DistrictMappingService._api_models := DistrictMappingService._api_models self |}.

(** ** Exceptions of the API ([app/exceptions/custom_exceptions.py]) *)

Module custom_exceptions.
Inductive kind : Type :=
  | RentMeException
  | ApiException
  | ValidationException
  | ValidationRequiredParameter
  | UnauthorizedException
  | ForbiddenException
  | NotFoundException
  | InternalServerException.

Record t : Type := {
  cls : kind;
  message : string;
  status_code : Z
}.

(** [ValidationRequiredParameter(parameter_name)]. *)
Definition required_parameter (parameter_name : string) : t :=
  {| cls := ValidationRequiredParameter;
     message := "Required parameter '" +:+ parameter_name +:+ "' is missing or invalid";
     status_code := 400 |}.
End custom_exceptions.

(** What a validation method does: it returns, or raises one of the
    exceptions of the API. *)
Inductive thrown : Type :=
  | Passes
  | Throws (e : custom_exceptions.t).

(** ** Validation of a filter to save ([SaveFilterRequest]) *)

Module SaveFilterRequest.
(** [range is not None and bound is not None and bound < 0]. *)
Definition negative_bound (range : option RangeModel.t)
    (bound : RangeModel.t -> option Z) : bool :=
  match range with
  | Some r =>
      match bound r with
      | Some v => v <? 0
      | None => false
      end
  | None => false
  end.

Definition ThrowIfInvalid (self : FilterModel.t) : thrown :=
  if FilterModel.CountryId self =? 0 then
    Throws (custom_exceptions.required_parameter "Country ID is required")
  else if FilterModel.RegionId self =? 0 then
    Throws (custom_exceptions.required_parameter "Region ID is required")
  else if truthy_ints (FilterModel.Districts self)
          && existsb (fun district => district <? 0)
               (default [] (FilterModel.Districts self)) then
    Throws (custom_exceptions.required_parameter "Districts item value is invalid range")
  else if truthy_ints (FilterModel.Types self)
          && existsb (fun type => type <=? 0) (default [] (FilterModel.Types self)) then
    Throws (custom_exceptions.required_parameter "Types item value is invalid range")
  else if truthy_ints (FilterModel.Rooms self)
          && existsb (fun room => room <=? 0) (default [] (FilterModel.Rooms self)) then
    Throws (custom_exceptions.required_parameter "Rooms item value is invalid range")
  else if negative_bound (FilterModel.Area self) RangeModel.from_ then
    Throws (custom_exceptions.required_parameter "Area.From is invalid range")
  else if negative_bound (FilterModel.Price self) RangeModel.from_ then
    Throws (custom_exceptions.required_parameter "Price.From is invalid range")
  else if negative_bound (FilterModel.Price self) RangeModel.to then
    Throws (custom_exceptions.required_parameter "Price.To is invalid range")
  else Passes.
End SaveFilterRequest.

(** ** The stored filter ([DbFilter] in [app/models/db_models.py]) *)

(** [PgDataAccess.read_mapping_first_or_default]: [first] is what
    [result.mappings().first()] gives, a row or [None]; an empty row counts as
    no row. *)
Definition read_mapping_first_or_default (first : result (option (gmap string pyval)))
  : result (option (gmap string pyval)) :=
  row ← first;
  match row with
  | Some row => if bool_decide (row = ∅) then Ok None else Ok (Some row)
  | None => Ok None
  end.

Module DbFilter.
(** [model.R.b if model.R and model.R.b is not None else dflt]. *)
Definition bound_or (range : option RangeModel.t) (bound : RangeModel.t -> option Z)
    (dflt : Z) : Z :=
  match range with
  | Some r => default dflt (bound r)
  | None => dflt
  end.

(** [ids or []]. *)
Definition ids_or_empty (ids : option (list Z)) : list Z :=
  if truthy_ints ids then default [] ids else [].

(** The parameters [Save] passes to [obj_users_filter_save2]; the UUID is
    held as its text. *)
Definition save_params (unique_id : string) (model : FilterModel.t) : gmap string pyval :=
  let params : gmap string pyval := ∅ in
  let params := <["unique_id" := PStr unique_id]> params in
  let params := <["country_id" := PInt (FilterModel.CountryId model)]> params in
  let params := <["region_id" := PInt (FilterModel.RegionId model)]> params in
  let params :=
    <["districts" := PList (PInt <$> ids_or_empty (FilterModel.Districts model))]> params in
  let params :=
    <["types" := PList (PInt <$> ids_or_empty (FilterModel.Types model))]> params in
  let params :=
    <["rooms" := PList (PInt <$> ids_or_empty (FilterModel.Rooms model))]> params in
  let params := <["agency" := PBool (FilterModel.Agency model)]> params in
  let params :=
    <["area_from" := PInt (bound_or (FilterModel.Area model) RangeModel.from_ 0)]> params in
  let params :=
    <["area_to" := PInt (bound_or (FilterModel.Area model) RangeModel.to 2147483647)]>
      params in
  let params :=
    <["price_from" := PInt (bound_or (FilterModel.Price model) RangeModel.from_ 0)]>
      params in
  <["price_to" := PInt (bound_or (FilterModel.Price model) RangeModel.to 2147483647)]>
    params.

(** [obj_users_filter_save2] is the call of the stored function, [commit] the
    outcome of [db.commit()]. *)
Definition Save
    (obj_users_filter_save2 : gmap string pyval -> result (option (gmap string pyval)))
    (commit : result unit) (unique_id : string) (model : FilterModel.t)
  : result (gmap string pyval) :=
  filter ← read_mapping_first_or_default
             (obj_users_filter_save2 (save_params unique_id model));
  match filter with
  | None => Raise (ApiException "There was an error while saving the filter")
  | Some filter => _ ← commit; Ok filter
  end.

(** [RangeModel(from_=lo, to=hi)] with both bounds passed. *)
Definition range_of `{Pydantic} (lo hi : pyval) : result RangeModel.t :=
  v_from ← validate_optional validate_int lo;
  v_to ← validate_optional validate_int hi;
  Ok {| RangeModel.from_ := v_from; RangeModel.to := v_to |}.

Definition Read `{Pydantic}
    (obj_users_filter_get : string -> result (option (gmap string pyval)))
    (unique_id : string) : result FilterModel.t :=
  row ← read_mapping_first_or_default (obj_users_filter_get unique_id);
  match row with
  | None => Raise (ApiException "There was an error while reading the filter")
  | Some row =>
      country_id ← dict_getitem row "country_id";
      region_id ← dict_getitem row "region_id";
      let districts := py_or (default PNone (row !! "districts")) (PList []) in
      let types := py_or (default PNone (row !! "types")) (PList []) in
      let rooms := py_or (default PNone (row !! "rooms")) (PList []) in
      agency ← dict_getitem row "agency";
      area_from ← dict_getitem row "area_from";
      area_to ← dict_getitem row "area_to";
      area ← range_of area_from area_to;
      price_from ← dict_getitem row "price_from";
      price_to ← dict_getitem row "price_to";
      price ← range_of price_from price_to;
      (* validation of the fields by [FilterModel] *)
      v_country ← validate_int country_id;
      v_region ← validate_int region_id;
      v_districts ← validate_optional (validate_list validate_int) districts;
      v_types ← validate_optional (validate_list validate_int) types;
      v_rooms ← validate_optional (validate_list validate_int) rooms;
      v_agency ← validate_bool agency;
      Ok {| FilterModel.CountryId := v_country;
            FilterModel.RegionId := v_region;
            FilterModel.Districts := v_districts;
            FilterModel.Types := v_types;
            FilterModel.Rooms := v_rooms;
            FilterModel.Agency := v_agency;
            FilterModel.Area := Some area;
            FilterModel.Price := Some price |}
  end.
End DbFilter.

(** ** More sample data *)

Module Cases.
(** A filter for region 5 with room counts. *)
Definition filter (rooms : option (list Z)) : FilterModel.t :=
  {| FilterModel.CountryId := 1;
     FilterModel.RegionId := 5;
     FilterModel.Districts := Some [11; 12];
     FilterModel.Types := Some [2];
     FilterModel.Rooms := rooms;
     FilterModel.Agency := false;
     FilterModel.Area := None;
     FilterModel.Price := None |}.

(** A table of regions whose first row for region 5 has an empty array of
    names. *)
Definition nameless : DbRegion.t := {| DbRegion.id := 5; DbRegion.names := Some [] |}.

Definition broken_service : ExternalListingsService :=
  {| base_url := "https://listings.example";
     endpoint := "/api/v1/listings";
     timeout := 30;
     db := {| dic_region_districts_load := Ok [];
              dic_regions_load := Ok [nameless; Sample.warsaw] |};
     district_mapper := DistrictMappingService.init |}.

(** A table of districts in which the id 11 occurs twice. *)
Definition districts : list DbDistrict.t :=
  [ {| DbDistrict.id := 11; DbDistrict.region_id := 5; DbDistrict.name := "Wola" |};
    {| DbDistrict.id := 12; DbDistrict.region_id := 5; DbDistrict.name := "" |};
    {| DbDistrict.id := 11; DbDistrict.region_id := 5; DbDistrict.name := "Ochota" |} ].

Definition session : AsyncSession :=
  {| dic_region_districts_load := Ok districts; dic_regions_load := Ok [Sample.warsaw] |}.

(** A session whose reads fail. *)
Definition down : AsyncSession :=
  {| dic_region_districts_load := Raise SQLAlchemyError;
     dic_regions_load := Raise SQLAlchemyError |}.

(** The row of a user who saved a filter with types, and of one who saved a
    filter without. *)
Definition row (types : pyval) : gmap string pyval :=
  list_to_map
    [("country_id", PInt 1); ("region_id", PInt 0);
     ("districts", PNone); ("types", types); ("rooms", PList []);
     ("agency", PBool false);
     ("area_from", PInt 0); ("area_to", PInt 2147483647);
     ("price_from", PInt 1000); ("price_to", PInt 3000)].

Definition stored (types : list Z) : FilterModel.t :=
  {| FilterModel.CountryId := 1;
     FilterModel.RegionId := 0;
     FilterModel.Districts := Some [];
     FilterModel.Types := Some types;
     FilterModel.Rooms := Some [];
     FilterModel.Agency := false;
     FilterModel.Area :=
       Some {| RangeModel.from_ := Some 0; RangeModel.to := Some 2147483647 |};
     FilterModel.Price :=
       Some {| RangeModel.from_ := Some 1000; RangeModel.to := Some 3000 |} |}.

(** A record with a city, a validity date and two photos. *)
Definition dated : list (string * pyval) :=
  [("id", PInt 5); ("city", PStr "Warszawa"); ("region", PStr "mazowieckie");
   ("district", PNone); ("offer_type", PStr "SALE");
   ("valid_to_time", PStr "2024-02-01 10:00:00");
   ("photos_urls", PList [PStr "a"; PStr "b"])].
End Cases.

(** ** Proof tactics *)

(** Inversion of a chain of binds that ends in a value. *)
Ltac bind_inv H :=
  repeat match type of H with
  | (?m ≫= _) = Ok _ =>
      let x := fresh "x" in
      let E := fresh "E" in
      destruct m as [x|] eqn:E; [cbn [mbind result_bind] in H | discriminate H]
  end.

(** [run Hb] names the dictionary a builder returns on a concrete request;
    [by_run Hb] reads one of its keys by evaluation. *)
Ltac run Hb :=
  match goal with
  | |- exists params, ?q = Ok params /\ _ =>
      let params := fresh "params" in
      let Hok := fresh in
      assert (Hok : is_Ok q = true) by (vm_compute; reflexivity);
      destruct q as [params|] eqn:Hb;
      [clear Hok; exists params; split; [reflexivity|] | discriminate Hok]
  end.

Ltac by_run Hb :=
  match goal with
  | |- ?params !! ?k = ?v =>
      match type of Hb with
      | ?q = Ok params =>
          let Hk := fresh in
          assert (Hk : param q k = v) by (vm_compute; reflexivity);
          rewrite Hb in Hk; exact Hk
      end
  end.

(** [mapped_run advert Hm] names the advert of a concrete record. *)
Ltac mapped_run advert Hm :=
  match goal with
  | |- exists _, ?q = Some _ /\ _ =>
      destruct q as [advert|] eqn:Hm;
      [exists advert; split; [reflexivity|] | vm_compute in Hm; discriminate Hm]
  end.

(** * Properties *)

(** ** The blocks of the filter builder, key by key *)

Section BuilderFacts.
Context `{PyLib}.
Implicit Types (params : gmap string pyval) (k : string).

Lemma types_param_lookup types params :
  types_param types params !! "building_type"
  = if truthy_ints types
    then Some (PList (PStr <$> expand_types (default [] types)))
    else params !! "building_type".
Proof.
  unfold types_param. destruct (truthy_ints types); [apply lookup_insert_eq | done].
Qed.

Lemma types_param_lookup_ne types params k :
  k ≠ "building_type" -> types_param types params !! k = params !! k.
Proof.
  intros Hk. unfold types_param. destruct (truthy_ints types); [|done].
  by rewrite lookup_insert_ne.
Qed.

Lemma range_params_lookup_min mn mx range params :
  mn ≠ mx ->
  range_params mn mx range params !! mn
  = match range ≫= RangeModel.from_ with
    | Some lo => Some (PInt lo)
    | None => params !! mn
    end.
Proof.
  intros Hne. unfold range_params. destruct range as [[lo hi]|]; simpl; [|done].
  destruct hi; [rewrite lookup_insert_ne by done|];
    (destruct lo; [apply lookup_insert_eq | done]).
Qed.

Lemma range_params_lookup_max mn mx range params :
  range_params mn mx range params !! mx
  = match range ≫= RangeModel.to with
    | Some hi => Some (PInt hi)
    | None => match range ≫= RangeModel.from_ with
              | Some lo => if decide (mn = mx) then Some (PInt lo) else params !! mx
              | None => params !! mx
              end
    end.
Proof.
  unfold range_params. destruct range as [[lo hi]|]; simpl; [|done].
  destruct hi; [apply lookup_insert_eq|].
  destruct lo; [|done]. by rewrite lookup_insert; case_decide.
Qed.

Lemma range_params_lookup_ne mn mx range params k :
  k ≠ mn -> k ≠ mx -> range_params mn mx range params !! k = params !! k.
Proof.
  intros Hmn Hmx. unfold range_params. destruct range as [[lo hi]|]; simpl; [|done].
  destruct hi; [rewrite lookup_insert_ne by done|];
    (destruct lo; [by rewrite lookup_insert_ne | done]).
Qed.

Lemma rooms_param_lookup_ne rooms params k :
  k ≠ "rooms" -> rooms_param rooms params !! k = params !! k.
Proof.
  intros Hk. unfold rooms_param. destruct (truthy_ints rooms); [|done].
  by rewrite lookup_insert_ne.
Qed.

Lemma agency_param_lookup agency params :
  agency_param agency params !! "is_business"
  = if agency then Some (PBool false) else params !! "is_business".
Proof. unfold agency_param. destruct agency; [apply lookup_insert_eq | done]. Qed.

Lemma agency_param_lookup_ne agency params k :
  k ≠ "is_business" -> agency_param agency params !! k = params !! k.
Proof.
  intros Hk. unfold agency_param. destruct agency; [|done].
  by rewrite lookup_insert_ne.
Qed.

Lemma district_param_lookup_ne db mapper districts params k :
  k ≠ "district" -> district_param db mapper districts params !! k = params !! k.
Proof.
  intros Hk. unfold district_param. destruct (truthy_ints districts); [|done].
  simpl. case_match; [done|]. by rewrite lookup_insert_ne.
Qed.

Lemma region_loop_lookup_ne regions region_id params params' k :
  region_loop regions region_id params = Ok params' ->
  k ≠ "city" ->
  params' !! k = params !! k.
Proof.
  intros Hloop Hk. revert Hloop. induction regions as [|reg rest IH]; simpl.
  - by intros [= ->].
  - destruct (DbRegion.id reg =? region_id); [|done].
    destruct (last_name_capitalized reg); simpl; [|done].
    intros [= <-]. by rewrite lookup_insert_ne.
Qed.

Lemma region_param_lookup_ne db region_id params params' k :
  region_param db region_id params = Ok params' ->
  k ≠ "city" ->
  params' !! k = params !! k.
Proof.
  intros Hregion Hk. revert Hregion. unfold region_param.
  destruct (negb (region_id =? 0)).
  - destruct (dic_regions_load db); simpl; [|done].
    intros Hloop. by apply (region_loop_lookup_ne _ _ _ _ _ Hloop).
  - by intros [= ->].
Qed.

(** What a successful run of the filter builder says about its input and
    about the keys it can set, districts, rooms and city apart. *)
Lemma build_filters_Ok self filter_model pagination params :
  _build_query_filters self filter_model pagination = Ok params ->
  exists fm,
    filter_model = Some fm
    /\ truthy_ints (FilterModel.Types fm) = true
    /\ params !! "offer_type" = Some (PStr "RENT")
    /\ params !! "building_type"
       = Some (PList (PStr <$> expand_types (default [] (FilterModel.Types fm))))
    /\ params !! "min_price" = PInt <$> (FilterModel.Price fm ≫= RangeModel.from_)
    /\ params !! "max_price" = PInt <$> (FilterModel.Price fm ≫= RangeModel.to)
    /\ params !! "min_area" = PInt <$> (FilterModel.Area fm ≫= RangeModel.from_)
    /\ params !! "max_area" = PInt <$> (FilterModel.Area fm ≫= RangeModel.to)
    /\ params !! "is_business"
       = (if FilterModel.Agency fm then Some (PBool false) else None)
    /\ params !! "limit" = None
    /\ params !! "direction" = None
    /\ params !! "id" = None.
Proof.
  unfold _build_query_filters. destruct filter_model as [fm|]; simpl; [|done].
  unfold dict_getitem. rewrite types_param_lookup.
  destruct (truthy_ints (FilterModel.Types fm)) eqn:Htypes; simpl; [|done].
  intros Hregion. exists fm. split; [done|]. split; [done|].
  repeat split.
  all: rewrite (region_param_lookup_ne _ _ _ _ _ Hregion) by done.
  all: rewrite district_param_lookup_ne by done.
  all: try rewrite agency_param_lookup; try rewrite agency_param_lookup_ne by done.
  all: rewrite rooms_param_lookup_ne by done.
  all: repeat first
         [ rewrite range_params_lookup_min by done
         | rewrite range_params_lookup_max
         | rewrite range_params_lookup_ne by done ].
  all: try rewrite types_param_lookup; try rewrite types_param_lookup_ne by done.
  all: try rewrite Htypes.
  all: repeat case_match; simplify_eq/=; try done.
Qed.

End BuilderFacts.

(** ** Query parameters *)

Section QueryParameters.
Context `{PyLib}.
Implicit Types (params : gmap string pyval) (k : string).

(** The pagination and missed-count builders add only [limit], [direction]
    and [id] to what the filter builder returns. *)
Lemma built_lookup self filter_model pagination params :
  built self filter_model pagination params ->
  exists params0,
    _build_query_filters self filter_model pagination = Ok params0
    /\ forall k, k ≠ "limit" -> k ≠ "direction" -> k ≠ "id" ->
                 params !! k = params0 !! k.
Proof.
  intros [Hb | [Hb | Hb]].
  - by exists params.
  - unfold _build_query_params_pagination in Hb.
    destruct (_build_query_filters self filter_model pagination) as [params0|];
      simpl in Hb; [|done].
    exists params0. split; [done|]. intros k Hl Hd Hi.
    repeat case_match; simplify_eq; by rewrite ?lookup_insert_ne.
  - unfold _build_query_params_missed in Hb.
    destruct (_build_query_filters self filter_model pagination) as [params0|];
      simpl in Hb; [|done].
    exists params0. split; [done|]. intros k Hl Hd Hi.
    repeat case_match; simplify_eq; by rewrite ?lookup_insert_ne.
Qed.

Lemma elem_of_expand_types (types : list Z) (s : string) :
  s ∈ expand_types types
  <-> exists t bts bt,
        t ∈ types /\ reverse_building_type_mapping !! t = Some bts
        /\ bt ∈ bts /\ s = value bt.
Proof.
  unfold expand_types. rewrite list_elem_of_bind. split.
  - intros (t & Hs & Ht).
    destruct (reverse_building_type_mapping !! t) as [bts|] eqn:Hrev.
    + apply list_elem_of_fmap in Hs as (bt & -> & Hbt). by exists t, bts, bt.
    + by apply not_elem_of_nil in Hs.
  - intros (t & bts & bt & Ht & Hrev & Hbt & ->). exists t. split; [|done].
    rewrite Hrev. apply list_elem_of_fmap. by exists bt.
Qed.

(** C5, as amended: a price or area bound is in the built query exactly when
    the filter has the range object and the bound of that object is not
    [None], and the parameter carries the bound.  The defaults 0 and
    [2^31 - 1], which [RangeModel] gives to a bound that was not passed, are
    bounds like any other. *)
Theorem range_bounds_sent self (fm : FilterModel.t) pagination params :
  built self (Some fm) pagination params ->
  params !! "min_price" = PInt <$> (FilterModel.Price fm ≫= RangeModel.from_)
  /\ params !! "max_price" = PInt <$> (FilterModel.Price fm ≫= RangeModel.to)
  /\ params !! "min_area" = PInt <$> (FilterModel.Area fm ≫= RangeModel.from_)
  /\ params !! "max_area" = PInt <$> (FilterModel.Area fm ≫= RangeModel.to).
Proof.
  intros (params0 & Hb & Hk)%built_lookup.
  apply build_filters_Ok in Hb as (fm' & [= <-] & _ & _ & _ & Hp1 & Hp2 & Ha1 & Ha2 & _).
  rewrite !Hk by done. done.
Qed.

(** C6, as amended: the listings query has [limit] 10; with an anchor advert
    id that is given and not zero the direction is [after] for [Prev] and
    [before] otherwise, and [id] is the anchor; with no anchor, or the anchor
    0, the direction is [latest] for [Latest] and is not set otherwise, and
    there is no [id]. *)
Theorem pagination_params self filter_model pagination params :
  _build_query_params_pagination self filter_model pagination = Ok params ->
  params !! "limit" = Some (PInt 10)
  /\ (forall anchor,
        ReadAdvertsRequest.AdvertId pagination = Some anchor -> anchor ≠ 0 ->
        params !! "direction"
        = Some (PStr (if ReadAdvertsRequest.Direction pagination
                         =? LoadAdvertsDirection.Prev
                      then "after" else "before"))
        /\ params !! "id" = Some (PInt anchor))
  /\ (ReadAdvertsRequest.AdvertId pagination = None
      \/ ReadAdvertsRequest.AdvertId pagination = Some 0 ->
      params !! "direction"
      = (if ReadAdvertsRequest.Direction pagination =? LoadAdvertsDirection.Latest
         then Some (PStr "latest") else None)
      /\ params !! "id" = None).
Proof.
  unfold _build_query_params_pagination.
  destruct (_build_query_filters self filter_model pagination) as [params0|] eqn:Hb;
    simpl; [|done].
  apply build_filters_Ok in Hb as (fm & _ & _ & _ & _ & _ & _ & _ & _ & _ & Hl & Hd & Hi).
  intros Hp. split; [|split].
  - repeat case_match; simplify_eq; rewrite ?lookup_insert_ne by done;
      apply lookup_insert_eq.
  - intros anchor Ha Hnz. rewrite Ha in Hp. simpl in Hp.
    destruct (anchor =? 0) eqn:Hz; [lia|]. simpl in Hp. simplify_eq.
    rewrite lookup_insert_eq. rewrite lookup_insert_ne by done.
    by rewrite lookup_insert_eq.
  - intros [Ha | Ha]; rewrite Ha in Hp; simpl in Hp;
      destruct (ReadAdvertsRequest.Direction pagination =? LoadAdvertsDirection.Latest);
      simplify_eq; rewrite ?lookup_insert_eq; rewrite ?lookup_insert_ne by done; done.
Qed.

(** C7: when the filter has [Agency] true the built query has [is_business]
    set to false, and when [Agency] is false it has no [is_business]. *)
Theorem agency_inverts_to_is_business self (fm : FilterModel.t) pagination params :
  built self (Some fm) pagination params ->
  (FilterModel.Agency fm = true -> params !! "is_business" = Some (PBool false))
  /\ (FilterModel.Agency fm = false -> params !! "is_business" = None).
Proof.
  intros (params0 & Hb & Hk)%built_lookup.
  apply build_filters_Ok in Hb as (fm' & [= <-] & _ & _ & _ & _ & _ & _ & _ & Hag & _).
  rewrite Hk by done. rewrite Hag. by split; intros ->.
Qed.

(** C8: for a filter with a non-empty list of type ids, [building_type] is a
    list of strings whose members are exactly the values of the building
    types that the reverse mapping lists under some type id of the filter. *)
Theorem building_type_is_union self (fm : FilterModel.t) pagination params types :
  FilterModel.Types fm = Some types -> types ≠ [] ->
  built self (Some fm) pagination params ->
  exists names,
    params !! "building_type" = Some (PList (PStr <$> names))
    /\ forall s, s ∈ names
         <-> exists t bts bt,
               t ∈ types /\ reverse_building_type_mapping !! t = Some bts
               /\ bt ∈ bts /\ s = value bt.
Proof.
  intros Htypes _ (params0 & Hb & Hk)%built_lookup.
  apply build_filters_Ok in Hb as (fm' & [= <-] & _ & _ & Hbt & _).
  rewrite Htypes in Hbt. exists (expand_types types). split.
  - by rewrite Hk.
  - apply elem_of_expand_types.
Qed.

End QueryParameters.

(** ** The query parameters of concrete requests *)

Section QueryParameterRuns.
#[local] Existing Instance pylib_utc.

(** C5 fails as stated: for a filter whose price and area ranges were built
    with no bound passed, the query carries the defaults 0 and [2^31 - 1] as
    all four bounds. *)
Lemma default_bounds_are_sent :
  let unset := RangeModel.new None None in
  exists params,
    _build_query_filters Sample.service
      (Some (Sample.filter (Some [2]) false (Some unset) (Some unset)))
      (Sample.request None LoadAdvertsDirection.Latest) = Ok params
    /\ params !! "min_price" = Some (PInt 0)
    /\ params !! "max_price" = Some (PInt 2147483647)
    /\ params !! "min_area" = Some (PInt 0)
    /\ params !! "max_area" = Some (PInt 2147483647).
Proof. intros unset. run Hb. repeat split; by_run Hb. Qed.

Lemma range_bounds_sent_witness :
  exists params,
    _build_query_params_pagination Sample.service
      (Some (Sample.filter (Some [2]) false
               (Some (RangeModel.new (Some (Some 1000)) (Some (Some 3000)))) None))
      (Sample.request (Some 42) LoadAdvertsDirection.Next) = Ok params
    /\ params !! "min_price" = Some (PInt 1000)
    /\ params !! "max_price" = Some (PInt 3000)
    /\ params !! "min_area" = None
    /\ params !! "max_area" = None.
Proof.
  run Hb. apply (range_bounds_sent Sample.service _ _ _ (or_intror (or_introl Hb))).
Defined.

(** C6 fails as stated: with the anchor advert id 0 and the direction [Next]
    the query has neither [direction] nor [id]. *)
Lemma zero_anchor_is_no_anchor :
  exists params,
    _build_query_params_pagination Sample.service
      (Some (Sample.filter (Some [2]) false None None))
      (Sample.request (Some 0) LoadAdvertsDirection.Next) = Ok params
    /\ params !! "limit" = Some (PInt 10)
    /\ params !! "direction" = None
    /\ params !! "id" = None.
Proof. run Hb. repeat split; by_run Hb. Qed.

Lemma pagination_params_witness :
  exists params,
    _build_query_params_pagination Sample.service
      (Some (Sample.filter (Some [2]) false
               (Some (RangeModel.new (Some (Some 1000)) (Some (Some 3000)))) None))
      (Sample.request (Some 42) LoadAdvertsDirection.Next) = Ok params
    /\ params !! "limit" = Some (PInt 10)
    /\ params !! "direction" = Some (PStr "before")
    /\ params !! "id" = Some (PInt 42).
Proof.
  run Hb. destruct (pagination_params _ _ _ _ Hb) as (Hl & Ha & _).
  destruct (Ha 42 eq_refl) as [Hd Hi]; [lia|].
  exact (conj Hl (conj Hd Hi)).
Defined.

(** The request of the end-to-end example of the design note. *)
Example end_to_end_query :
  exists params,
    _build_query_params_pagination Sample.service
      (Some (Sample.filter (Some [2]) false
               (Some (RangeModel.new (Some (Some 1000)) (Some (Some 3000)))) None))
      (Sample.request (Some 42) LoadAdvertsDirection.Next) = Ok params
    /\ params !! "min_price" = Some (PInt 1000)
    /\ params !! "max_price" = Some (PInt 3000)
    /\ params !! "direction" = Some (PStr "before")
    /\ params !! "id" = Some (PInt 42)
    /\ params !! "limit" = Some (PInt 10)
    /\ params !! "city" = Some (PList [PStr "Warszawa"])
    /\ params !! "district" = Some (PList [PStr "Wola"]).
Proof. run Hb. repeat split; by_run Hb. Qed.

Lemma agency_inverts_to_is_business_witness :
  exists params,
    _build_query_params_missed Sample.service
      (Some (Sample.filter (Some [3]) true None None))
      (Sample.request None LoadAdvertsDirection.Latest) = Ok params
    /\ params !! "is_business" = Some (PBool false).
Proof.
  run Hb.
  exact (proj1 (agency_inverts_to_is_business Sample.service _ _ _
                  (or_intror (or_intror Hb))) eq_refl).
Defined.

Lemma building_type_is_union_witness :
  exists params,
    _build_query_filters Sample.service
      (Some (Sample.filter (Some [3; 7; 1; 3]) false None None))
      (Sample.request None LoadAdvertsDirection.Latest) = Ok params
    /\ exists names,
         params !! "building_type" = Some (PList (PStr <$> names))
         /\ forall s, s ∈ names
              <-> exists t bts bt,
                    t ∈ [3; 7; 1; 3] /\ reverse_building_type_mapping !! t = Some bts
                    /\ bt ∈ bts /\ s = value bt.
Proof.
  run Hb.
  refine (building_type_is_union Sample.service
            (Sample.filter (Some [3; 7; 1; 3]) false None None) _ _ [3; 7; 1; 3]
            eq_refl _ (or_introl Hb)).
  discriminate.
Defined.

(** The expansion of a concrete type filter: the unknown id 7 adds nothing and
    the repeated id 3 repeats its entries. *)
Example expand_types_run :
  expand_types [3; 7; 1; 3]
  = ["TENEMENT"; "HOUSE"; "WOLNOSTOJACY"; "OTHER"; "TENEMENT"; "HOUSE"; "WOLNOSTOJACY"].
Proof. vm_compute. reflexivity. Qed.

End QueryParameterRuns.

(** ** The fetch *)

Section Fetch.
Context `{PyLib}.
Variable self : ExternalListingsService.
Variable client : AsyncClient.

(** What the filter builder does without a type filter. *)
Lemma build_filters_without_types filter_model pagination :
  filter_model = None
  \/ (exists fm, filter_model = Some fm /\ truthy_ints (FilterModel.Types fm) = false) ->
  _build_query_filters self filter_model pagination
  = Raise (match filter_model with None => AttributeError | Some _ => KeyError end).
Proof.
  intros [-> | (fm & -> & Htypes)]; [done|].
  unfold _build_query_filters. simpl. unfold dict_getitem.
  rewrite types_param_lookup, Htypes. done.
Qed.

(** With a type filter and no region the filter builder returns. *)
Lemma build_filters_returns (fm : FilterModel.t) pagination :
  truthy_ints (FilterModel.Types fm) = true ->
  FilterModel.RegionId fm = 0 ->
  is_Ok (_build_query_filters self (Some fm) pagination) = true.
Proof.
  intros Htypes Hregion. unfold _build_query_filters. simpl.
  unfold dict_getitem. rewrite types_param_lookup, Htypes. simpl.
  unfold region_param. by rewrite Hregion.
Qed.

(** C3 is not what the code does: when the filter is [None], or its [Types]
    is [None] or empty, the filter builder raises ([AttributeError] on the
    attribute of [None], [KeyError] on reading [building_type] back), and
    [get_listings] and [get_missed] raise the internal-error [ApiException]. *)
Theorem no_type_filter_is_internal_error filter_model pagination :
  filter_model = None
  \/ (exists fm, filter_model = Some fm
                 /\ (FilterModel.Types fm = None \/ FilterModel.Types fm = Some [])) ->
  _build_query_filters self filter_model pagination
  = Raise (match filter_model with None => AttributeError | Some _ => KeyError end)
  /\ get_listings self client filter_model pagination
     = Raise (ApiException "Internal error in listings service")
  /\ get_missed self client filter_model pagination
     = Raise (ApiException "Internal error in listings service").
Proof.
  intros Hno.
  assert (Hb : _build_query_filters self filter_model pagination
               = Raise (match filter_model with
                        | None => AttributeError | Some _ => KeyError end)).
  { apply build_filters_without_types.
    destruct Hno as [-> | (fm & -> & [Ht | Ht])]; [by left | right..];
      exists fm; by rewrite Ht. }
  split; [done|].
  unfold get_listings, get_missed, _build_query_params_pagination,
    _build_query_params_missed.
  rewrite Hb. by destruct filter_model.
Qed.

(** C1 is not what the code does: when the parameters are built and the
    request runs into the timeout, [get_listings] returns the empty list and
    [get_missed] returns 0; the exception does not reach the outer handler. *)
Theorem timeout_is_swallowed filter_model pagination :
  (forall params,
     _build_query_params_pagination self filter_model pagination = Ok params ->
     client (base_url self +:+ endpoint self) params = Raise TimeoutException ->
     get_listings self client filter_model pagination = Ok (PList []))
  /\ (forall params,
        _build_query_params_missed self filter_model pagination = Ok params ->
        client (base_url self +:+ "/api/v1/listings/new/count") params
        = Raise TimeoutException ->
        get_missed self client filter_model pagination = Ok (PInt 0)).
Proof.
  split; intros params Hb Hc.
  - unfold get_listings. rewrite Hb. simpl. by rewrite Hc.
  - unfold get_missed. rewrite Hb. simpl. by rewrite Hc.
Qed.

(** C4: when the parameters are built and the provider answers with a status
    other than 200, [get_listings] returns the empty list and [get_missed]
    returns 0. *)
Theorem bad_status_is_empty filter_model pagination :
  (forall params resp,
     _build_query_params_pagination self filter_model pagination = Ok params ->
     client (base_url self +:+ endpoint self) params = Ok resp ->
     status_code resp ≠ 200 ->
     get_listings self client filter_model pagination = Ok (PList []))
  /\ (forall params resp,
        _build_query_params_missed self filter_model pagination = Ok params ->
        client (base_url self +:+ "/api/v1/listings/new/count") params = Ok resp ->
        status_code resp ≠ 200 ->
        get_missed self client filter_model pagination = Ok (PInt 0)).
Proof.
  split; intros params resp Hb Hc Hs.
  - unfold get_listings. rewrite Hb. simpl. rewrite Hc. simpl.
    destruct (status_code resp =? 200) eqn:Heq; [lia | done].
  - unfold get_missed. rewrite Hb. simpl. rewrite Hc. simpl.
    destruct (status_code resp =? 200) eqn:Heq; [lia | done].
Qed.

(** The filter builder raises httpx's timeout only if the database session
    does, and so does the handler for it in [get_listings]. *)
Lemma region_loop_no_timeout regions region_id params :
  region_loop regions region_id params ≠ Raise TimeoutException.
Proof.
  induction regions as [|reg rest IH]; simpl; [done|].
  destruct (DbRegion.id reg =? region_id); [|done].
  unfold last_name_capitalized.
  destruct (DbRegion.names reg) as [names|]; [|done].
  by destruct (last names) as [[name|]|].
Qed.

Lemma build_filters_timeout filter_model pagination :
  _build_query_filters self filter_model pagination = Raise TimeoutException ->
  dic_regions_load (db self) = Raise TimeoutException.
Proof.
  unfold _build_query_filters. destruct filter_model as [fm|]; simpl; [|done].
  destruct (dict_getitem _ "building_type") eqn:Hprint; simpl.
  - unfold region_param. destruct (negb (FilterModel.RegionId fm =? 0)); [|done].
    destruct (dic_regions_load (db self)) as [regions|e]; simpl; [|congruence].
    intros Hloop. by apply region_loop_no_timeout in Hloop.
  - unfold dict_getitem in Hprint. intros [= ->].
    by destruct (types_param _ _ !! "building_type").
Qed.

Lemma timeout_handler_origin filter_model pagination :
  get_listings self client filter_model pagination
  = Raise (ApiException "External listings API timeout") ->
  dic_regions_load (db self) = Raise TimeoutException.
Proof.
  unfold get_listings, _build_query_params_pagination.
  destruct (_build_query_filters self filter_model pagination) as [params|e] eqn:Hb;
    simpl.
  - repeat case_match; simpl; try done;
      match goal with
      | |- context [try_except ?body _] => by destruct body
      end.
  - destruct e; simpl; try done. intros _. by eapply build_filters_timeout.
Qed.

(** Neither function lets an exception of the request itself through: once
    the parameters are built, the call returns a value. *)
Lemma fetch_returns filter_model pagination params :
  _build_query_params_pagination self filter_model pagination = Ok params ->
  is_Ok (get_listings self client filter_model pagination) = true.
Proof.
  intros Hb. unfold get_listings. rewrite Hb. simpl.
  destruct (client _ params) as [resp|]; simpl; [|done].
  destruct (status_code resp =? 200); [|done].
  destruct (json resp) as [data|]; simpl; [|done].
  by destruct data.
Qed.

End Fetch.

Section FetchRuns.
#[local] Existing Instance pylib_utc.

Lemma no_type_filter_is_internal_error_witness :
  get_listings Sample.service (Sample.answers 200 (PDict ∅))
    (Some (Sample.filter (Some []) false None None))
    (Sample.request None LoadAdvertsDirection.Latest)
  = Raise (ApiException "Internal error in listings service")
  /\ get_listings Sample.service (Sample.answers 200 (PDict ∅)) None
       (Sample.request None LoadAdvertsDirection.Latest)
     = Raise (ApiException "Internal error in listings service").
Proof.
  split.
  - refine (proj1 (proj2 (no_type_filter_is_internal_error _ _ _ _ _))).
    right. eexists. split; [reflexivity|]. right. reflexivity.
  - refine (proj1 (proj2 (no_type_filter_is_internal_error _ _ _ _ _))).
    left. reflexivity.
Defined.

Lemma timeout_is_swallowed_witness :
  exists params,
    _build_query_params_pagination Sample.service
      (Some (Sample.filter (Some [2]) false None None))
      (Sample.request None LoadAdvertsDirection.Latest) = Ok params
    /\ get_listings Sample.service Sample.times_out
         (Some (Sample.filter (Some [2]) false None None))
         (Sample.request None LoadAdvertsDirection.Latest)
       = Ok (PList []).
Proof.
  run Hb.
  exact (proj1 (timeout_is_swallowed Sample.service Sample.times_out _ _)
           _ Hb eq_refl).
Defined.

(** The same request to the missed-count endpoint. *)
Example timeout_is_swallowed_missed :
  exists params,
    _build_query_params_missed Sample.service
      (Some (Sample.filter (Some [2]) false None None))
      (Sample.request (Some 42) LoadAdvertsDirection.Next) = Ok params
    /\ get_missed Sample.service Sample.times_out
         (Some (Sample.filter (Some [2]) false None None))
         (Sample.request (Some 42) LoadAdvertsDirection.Next)
       = Ok (PInt 0).
Proof. run Hb. vm_compute. reflexivity. Qed.

Lemma bad_status_is_empty_witness :
  exists params,
    _build_query_params_pagination Sample.service
      (Some (Sample.filter (Some [2]) false None None))
      (Sample.request None LoadAdvertsDirection.Latest) = Ok params
    /\ get_listings Sample.service (Sample.answers 503 PNone)
         (Some (Sample.filter (Some [2]) false None None))
         (Sample.request None LoadAdvertsDirection.Latest)
       = Ok (PList []).
Proof.
  run Hb.
  refine (proj1 (bad_status_is_empty Sample.service (Sample.answers 503 PNone) _ _)
            _ _ Hb eq_refl _).
  simpl. lia.
Defined.

(** The same provider asked for the missed count. *)
Example bad_status_is_zero_missed :
  exists params,
    _build_query_params_missed Sample.service
      (Some (Sample.filter (Some [2]) false None None))
      (Sample.request (Some 42) LoadAdvertsDirection.Next) = Ok params
    /\ get_missed Sample.service (Sample.answers 503 PNone)
         (Some (Sample.filter (Some [2]) false None None))
         (Sample.request (Some 42) LoadAdvertsDirection.Next)
       = Ok (PInt 0).
Proof. run Hb. vm_compute. reflexivity. Qed.

End FetchRuns.

(** ** The mapper *)

Section MapperFacts.
Context `{PyLib} `{Pydantic}.

Lemma validate_optional_int_exact n :
  validate_optional validate_int (PInt n) = Ok (Some n).
Proof. simpl. by rewrite validate_int_exact. Qed.

(** An absent or empty date is the reading of the clock. *)
Lemma _parse_datetime_falsy utcnow datetime_str :
  truthy datetime_str = false -> _parse_datetime utcnow datetime_str = utcnow.
Proof. intros Hf. unfold _parse_datetime. by rewrite Hf. Qed.

(** A date that one of the formats accepts is the date of that format. *)
Lemma _parse_datetime_parsed utcnow datetime_str d :
  truthy datetime_str = true ->
  parse_loop datetime_str formats = Ok (Some d) ->
  _parse_datetime utcnow datetime_str = d.
Proof. intros Ht Hp. unfold _parse_datetime. by rewrite Ht, Hp. Qed.

(** What a mapped record says about the fields of the provider's object. *)
Lemma map_listing_Ok clock (d : gmap string pyval) advert :
  map_listing_to_advert_try clock (PDict d) = Ok advert ->
  validate_bool (default (PBool true) (d !! "is_business"))
  = Ok (AdvertModel.agency advert)
  /\ exists ms_created ms_valid_to,
       epoch_ms (_parse_datetime (now_created clock) (default PNone (d !! "created_time")))
       = Ok ms_created
       /\ epoch_ms (_parse_datetime (now_valid_to clock)
                      (default PNone (d !! "valid_to_time")))
          = Ok ms_valid_to
       /\ AdvertModel.createdAt advert = Some ms_created
       /\ AdvertModel.validTo advert = Some ms_valid_to.
Proof.
  intros Hm. unfold map_listing_to_advert_try in Hm.
  cbn [py_get mbind result_bind] in Hm. bind_inv Hm.
  injection Hm as <-. simpl.
  unfold datetime_truthy in *.
  rewrite validate_optional_int_exact in *. simplify_eq.
  split; [done|]. eexists _, _. repeat split; eauto.
Qed.

Lemma map_listing_Some clock listing advert :
  map_listing_to_advert clock listing = Some advert
  <-> map_listing_to_advert_try clock listing = Ok advert.
Proof.
  unfold map_listing_to_advert.
  destruct (map_listing_to_advert_try clock listing); naive_solver.
Qed.

(** C2 is not what the code does: for a record without [valid_to_time] whose
    [created_time] is accepted by one of the formats, [createdAt] is the
    parsed creation time and [validTo] is the reading of the clock, because
    [_parse_datetime] turns the missing value into the current time and a
    [datetime] is always true. *)
Theorem valid_to_is_processing_time clock (d : gmap string pyval) created dt advert :
  d !! "valid_to_time" = None ->
  d !! "created_time" = Some created ->
  truthy created = true ->
  parse_loop created formats = Ok (Some dt) ->
  map_listing_to_advert clock (PDict d) = Some advert ->
  exists ms_created ms_now,
    epoch_ms dt = Ok ms_created
    /\ epoch_ms (now_valid_to clock) = Ok ms_now
    /\ AdvertModel.createdAt advert = Some ms_created
    /\ AdvertModel.validTo advert = Some ms_now.
Proof.
  intros Hv Hc Ht Hp Hm%map_listing_Some.
  apply map_listing_Ok in Hm as (_ & ms_created & ms_now & Hec & Hev & Hac & Hav).
  rewrite Hv in Hev. rewrite Hc in Hec. simpl in Hec, Hev.
  rewrite (_parse_datetime_parsed _ _ dt Ht Hp) in Hec.
  rewrite _parse_datetime_falsy in Hev by done.
  by exists ms_created, ms_now.
Qed.

(** C10: a mapped record without [is_business] has [agency] true, and a
    mapped record whose [is_business] is a boolean has that boolean as
    [agency]. *)
Theorem agency_is_is_business clock (d : gmap string pyval) advert :
  map_listing_to_advert clock (PDict d) = Some advert ->
  (d !! "is_business" = None -> AdvertModel.agency advert = true)
  /\ (forall b, d !! "is_business" = Some (PBool b) -> AdvertModel.agency advert = b).
Proof.
  intros Hm%map_listing_Some. apply map_listing_Ok in Hm as [Hag _].
  split.
  - intros Hd. rewrite Hd in Hag. simpl in Hag.
    rewrite validate_bool_exact in Hag. by injection Hag.
  - intros b Hd. rewrite Hd in Hag. simpl in Hag.
    rewrite validate_bool_exact in Hag. by injection Hag.
Qed.

(** C9: a record whose mapping raises is mapped to [None]; for a page of
    records, [get_listings_mapped] returns the adverts of the records that
    map, in the order of the page, and so every advert of a record that maps
    is returned whatever the other records are. *)
Theorem bad_records_are_dropped self client (clock : nat -> Clock)
    filter_model pagination (items : list pyval) :
  get_listings self client filter_model pagination = Ok (PList items) ->
  (forall i listing e,
     items !! i = Some listing ->
     map_listing_to_advert_try (clock i) listing = Raise e ->
     map_listing_to_advert (clock i) listing = None)
  /\ get_listings_mapped self client clock filter_model pagination
     = omap id (imap (fun i listing => map_listing_to_advert (clock i) listing) items)
  /\ (forall advert,
        advert ∈ get_listings_mapped self client clock filter_model pagination
        <-> exists i listing,
              items !! i = Some listing
              /\ map_listing_to_advert (clock i) listing = Some advert).
Proof.
  intros Hget.
  assert (Hmapped :
            get_listings_mapped self client clock filter_model pagination
            = omap id (imap (fun i listing => map_listing_to_advert (clock i) listing)
                         items)).
  { unfold get_listings_mapped. by rewrite Hget. }
  split; [|split; [done|]].
  - intros i listing e _ Hraise. unfold map_listing_to_advert. by rewrite Hraise.
  - intros advert. rewrite Hmapped, list_elem_of_omap. split.
    + intros (o & (i & listing & -> & Hi)%elem_of_lookup_imap & Ho).
      by exists i, listing.
    + intros (i & listing & Hi & Hm). exists (Some advert). split; [|done].
      rewrite <- Hm.
      by apply (elem_of_lookup_imap_2
                  (fun i listing => map_listing_to_advert (clock i) listing)).
Qed.

End MapperFacts.

(** ** The mapping of concrete records *)

Section MapperRuns.
#[local] Existing Instance pylib_utc.
#[local] Existing Instance pydantic_exact.

(** The record of the design note: created at the start of 2024, no
    [valid_to_time], mapped on 3 November 2026. *)
Lemma valid_to_is_processing_time_witness :
  exists advert,
    map_listing_to_advert Sample.clock (Sample.flat 3) = Some advert
    /\ AdvertModel.createdAt advert = Some 1704067200000
    /\ AdvertModel.validTo advert = Some 1793707200250.
Proof.
  destruct (map_listing_to_advert Sample.clock (Sample.flat 3)) as [advert|] eqn:Hm;
    [|vm_compute in Hm; discriminate Hm].
  exists advert. split; [reflexivity|].
  destruct (valid_to_is_processing_time Sample.clock
              (list_to_map (Sample.flat_fields 3))
              (PStr "2024-01-01T00:00:00Z")
              {| year := 2024; month := 1; day := 1;
                 hour := 0; minute := 0; second := 0; microsecond := 0 |}
              advert)
    as (ms_created & ms_now & Hc & Hn & Hac & Hav).
  - vm_compute. reflexivity.
  - vm_compute. reflexivity.
  - reflexivity.
  - vm_compute. reflexivity.
  - exact Hm.
  - vm_compute in Hc, Hn. injection Hc as <-. injection Hn as <-. by split.
Defined.

Example flat_record_mapped :
  map_listing_to_advert Sample.clock (Sample.flat 3) = Some (Sample.mapped 3).
Proof. vm_compute. reflexivity. Qed.

Lemma agency_is_is_business_witness :
  (exists advert,
     map_listing_to_advert Sample.clock (Sample.listing [("id", PInt 4)]) = Some advert
     /\ AdvertModel.agency advert = true)
  /\ (exists advert,
        map_listing_to_advert Sample.clock (Sample.flat 3) = Some advert
        /\ AdvertModel.agency advert = false).
Proof.
  split.
  - destruct (map_listing_to_advert Sample.clock (Sample.listing [("id", PInt 4)]))
      as [advert|] eqn:Hm; [|vm_compute in Hm; discriminate Hm].
    exists advert. split; [reflexivity|].
    apply (proj1 (agency_is_is_business Sample.clock
                    (list_to_map [("id", PInt 4)]) advert Hm)).
    vm_compute. reflexivity.
  - destruct (map_listing_to_advert Sample.clock (Sample.flat 3))
      as [advert|] eqn:Hm; [|vm_compute in Hm; discriminate Hm].
    exists advert. split; [reflexivity|].
    apply (proj2 (agency_is_is_business Sample.clock
                    (list_to_map (Sample.flat_fields 3)) advert Hm) false).
    vm_compute. reflexivity.
Defined.

(** A page with two records that cannot be mapped between two that can. *)
Lemma bad_records_are_dropped_witness :
  let client := Sample.answers 200 (Sample.listing [("items", PList Sample.page)]) in
  let filter := Some (Sample.filter (Some [2]) false None None) in
  let request := Sample.request None LoadAdvertsDirection.Latest in
  map_listing_to_advert Sample.clock (PStr "garbage") = None
  /\ Sample.mapped 9
     ∈ get_listings_mapped Sample.service client (fun _ => Sample.clock) filter request.
Proof.
  intros client filter request.
  destruct (bad_records_are_dropped Sample.service client (fun _ => Sample.clock)
              filter request Sample.page) as (Hdrop & _ & Hin).
  - vm_compute. reflexivity.
  - split.
    + apply (Hdrop 1%nat (PStr "garbage") AttributeError); reflexivity.
    + apply Hin. exists 3%nat, (Sample.flat 9). split; [reflexivity|].
      vm_compute. reflexivity.
Defined.

Example page_mapped :
  get_listings_mapped Sample.service
    (Sample.answers 200 (Sample.listing [("items", PList Sample.page)]))
    (fun _ => Sample.clock)
    (Some (Sample.filter (Some [2]) false None None))
    (Sample.request None LoadAdvertsDirection.Latest)
  = [Sample.mapped 3; Sample.mapped 9].
Proof. vm_compute. reflexivity. Qed.

(** Without a type filter the mapped page is empty whatever the provider
    holds: the exception of [get_listings] is caught. *)
Example page_without_type_filter :
  get_listings_mapped Sample.service
    (Sample.answers 200 (Sample.listing [("items", PList Sample.page)]))
    (fun _ => Sample.clock) None
    (Sample.request None LoadAdvertsDirection.Latest)
  = [].
Proof. vm_compute. reflexivity. Qed.

End MapperRuns.

(** * Further properties *)

(** ** The filter builder, block by block *)

Section BuilderBlocks.
Context `{PyLib}.
Variable self : ExternalListingsService.
Implicit Types (params : gmap string pyval) (k : string).

(** With a type filter the builder is the chain of its blocks. *)
Lemma build_filters_with_types (fm : FilterModel.t) pagination :
  truthy_ints (FilterModel.Types fm) = true ->
  _build_query_filters self (Some fm) pagination
  = region_param (db self) (FilterModel.RegionId fm)
      (district_param (db self) (district_mapper self) (FilterModel.Districts fm)
         (agency_param (FilterModel.Agency fm)
            (rooms_param (FilterModel.Rooms fm)
               (range_params "min_area" "max_area" (FilterModel.Area fm)
                  (range_params "min_price" "max_price" (FilterModel.Price fm)
                     (types_param (FilterModel.Types fm)
                        (<["offer_type" := PStr "RENT"]> ∅))))))).
Proof.
  intros Htypes. unfold _build_query_filters. simpl. unfold dict_getitem.
  by rewrite types_param_lookup, Htypes.
Qed.

Lemma rooms_param_lookup rooms params :
  rooms_param rooms params !! "rooms"
  = if truthy_ints rooms then Some (PList (PInt <$> default [] rooms))
    else params !! "rooms".
Proof. unfold rooms_param. destruct (truthy_ints rooms); [apply lookup_insert_eq | done]. Qed.

Lemma district_param_lookup db mapper districts params :
  district_param db mapper districts params !! "district"
  = match (if truthy_ints districts
           then (DistrictMappingService.get_district_names db mapper
                   (default [] districts)).1
           else []) with
    | [] => params !! "district"
    | names => Some (PList (PStr <$> names))
    end.
Proof.
  unfold district_param. destruct (truthy_ints districts); [|done].
  simpl. case_match; [done|]. apply lookup_insert_eq.
Qed.

(** The loop over the regions stops at the first region with the id. *)
Lemma region_loop_find regions region_id params :
  region_loop regions region_id params
  = match List.find (fun reg => DbRegion.id reg =? region_id) regions with
    | None => Ok params
    | Some reg =>
        region_name ← last_name_capitalized reg;
        Ok (<["city" := PList [PStr region_name]]> params)
    end.
Proof.
  induction regions as [|reg rest IH]; simpl; [done|].
  by destruct (DbRegion.id reg =? region_id).
Qed.

(** X1: the three builders fail together and with the same exception. *)
Theorem builders_fail_together filter_model pagination e :
  (_build_query_params_pagination self filter_model pagination = Raise e
   <-> _build_query_filters self filter_model pagination = Raise e)
  /\ (_build_query_params_missed self filter_model pagination = Raise e
      <-> _build_query_filters self filter_model pagination = Raise e).
Proof.
  unfold _build_query_params_pagination, _build_query_params_missed.
  destruct (_build_query_filters self filter_model pagination) as [params|e'];
    simpl; [|done].
  split; (split; [|done]); repeat case_match; done.
Qed.

(** X2: a built query has [offer_type] set to [RENT] and no key outside the
    thirteen the builders write. *)
Theorem built_keys filter_model pagination params :
  built self filter_model pagination params ->
  params !! "offer_type" = Some (PStr "RENT")
  /\ forall k, is_Some (params !! k) ->
       k ∈ ["offer_type"; "building_type"; "min_price"; "max_price"; "min_area";
            "max_area"; "rooms"; "is_business"; "district"; "city";
            "limit"; "direction"; "id"].
Proof.
  intros Hbuilt. split.
  - destruct (built_lookup _ _ _ _ Hbuilt) as (params0 & Hb & Hk).
    rewrite Hk by done.
    by apply build_filters_Ok in Hb as (fm & _ & _ & Ho & _).
  - intros k Hsome.
    match goal with |- k ∈ ?keys => destruct (decide (k ∈ keys)) as [|Hout]; [done|] end.
    exfalso. rewrite !not_elem_of_cons in Hout.
    destruct Hout as (? & ? & ? & ? & ? & ? & ? & ? & ? & ? & ? & ? & ? & _).
    destruct (built_lookup _ _ _ _ Hbuilt) as (params0 & Hb & Hk).
    rewrite Hk in Hsome by done.
    pose proof (build_filters_Ok _ _ _ _ Hb) as (fm & -> & Htypes & _).
    rewrite build_filters_with_types in Hb by done.
    rewrite (region_param_lookup_ne _ _ _ _ _ Hb) in Hsome by done.
    rewrite district_param_lookup_ne, agency_param_lookup_ne, rooms_param_lookup_ne,
      !range_params_lookup_ne, types_param_lookup_ne, lookup_insert_ne, lookup_empty
      in Hsome by done.
    by destruct Hsome.
Qed.

(** X3: [rooms] is in a built query exactly when the filter has a non-empty
    list of room counts, and then it is that list. *)
Theorem rooms_passed_through (fm : FilterModel.t) pagination params :
  built self (Some fm) pagination params ->
  params !! "rooms"
  = match FilterModel.Rooms fm with
    | Some (room :: rooms) => Some (PList (PInt <$> room :: rooms))
    | _ => None
    end.
Proof.
  intros (params0 & Hb & Hk)%built_lookup. rewrite Hk by done.
  pose proof (build_filters_Ok _ _ _ _ Hb) as (fm' & [= <-] & Htypes & _).
  rewrite build_filters_with_types in Hb by done.
  rewrite (region_param_lookup_ne _ _ _ _ _ Hb) by done.
  rewrite district_param_lookup_ne, agency_param_lookup_ne, rooms_param_lookup by done.
  destruct (FilterModel.Rooms fm) as [[|room rooms]|]; simpl; try done.
  all: by rewrite !range_params_lookup_ne, types_param_lookup_ne by done.
Qed.

(** X4: [district] is in a built query exactly when the filter has district
    ids of which the name cache resolves at least one, and then it is the
    list of the resolved names. *)
Theorem district_names_sent (fm : FilterModel.t) pagination params :
  built self (Some fm) pagination params ->
  params !! "district"
  = match FilterModel.Districts fm with
    | Some (district :: districts) =>
        match (DistrictMappingService.get_district_names (db self)
                 (district_mapper self) (district :: districts)).1 with
        | [] => None
        | names => Some (PList (PStr <$> names))
        end
    | _ => None
    end.
Proof.
  intros (params0 & Hb & Hk)%built_lookup. rewrite Hk by done.
  pose proof (build_filters_Ok _ _ _ _ Hb) as (fm' & [= <-] & Htypes & _).
  rewrite build_filters_with_types in Hb by done.
  rewrite (region_param_lookup_ne _ _ _ _ _ Hb) by done.
  rewrite district_param_lookup.
  assert (Hbelow :
            agency_param (FilterModel.Agency fm)
              (rooms_param (FilterModel.Rooms fm)
                 (range_params "min_area" "max_area" (FilterModel.Area fm)
                    (range_params "min_price" "max_price" (FilterModel.Price fm)
                       (types_param (FilterModel.Types fm)
                          (<["offer_type" := PStr "RENT"]> ∅))))) !! "district" = None).
  { by rewrite agency_param_lookup_ne, rooms_param_lookup_ne, !range_params_lookup_ne,
      types_param_lookup_ne by done. }
  rewrite Hbelow.
  destruct (FilterModel.Districts fm) as [[|district districts]|]; simpl; try done.
Qed.

(** X5: [city] in a built query is decided by the first region of the list
    whose id is the filter's region id: it is the capitalized last name of
    that region; without such a region, or with the region id 0, there is no
    [city]. *)
Theorem city_is_first_match (fm : FilterModel.t) pagination params :
  built self (Some fm) pagination params ->
  (FilterModel.RegionId fm = 0 -> params !! "city" = None)
  /\ (forall regions,
        FilterModel.RegionId fm ≠ 0 ->
        dic_regions_load (db self) = Ok regions ->
        match List.find (fun reg => DbRegion.id reg =? FilterModel.RegionId fm)
                regions with
        | None => params !! "city" = None
        | Some reg =>
            exists names name,
              DbRegion.names reg = Some names
              /\ last names = Some (Some name)
              /\ params !! "city" = Some (PList [PStr (capitalize name)])
        end).
Proof.
  intros (params0 & Hb & Hk)%built_lookup. rewrite !Hk by done.
  pose proof (build_filters_Ok _ _ _ _ Hb) as (fm' & [= <-] & Htypes & _).
  rewrite build_filters_with_types in Hb by done.
  match type of Hb with
  | region_param _ _ ?p = _ =>
      assert (Hbelow : p !! "city" = None)
        by (by rewrite district_param_lookup_ne, agency_param_lookup_ne,
              rooms_param_lookup_ne, !range_params_lookup_ne, types_param_lookup_ne
              by done);
      set (below := p) in *
  end.
  unfold region_param in Hb. split.
  - intros Hz. rewrite Hz in Hb. simpl in Hb. by injection Hb as <-.
  - intros regions Hnz Hload.
    destruct (FilterModel.RegionId fm =? 0) eqn:Hz; [lia|]. simpl in Hb.
    rewrite Hload in Hb. simpl in Hb. rewrite region_loop_find in Hb.
    destruct (List.find _ regions) as [reg|].
    + unfold last_name_capitalized in Hb.
      destruct (DbRegion.names reg) as [names|]; [|done].
      destruct (last names) as [[name|]|] eqn:Hlast; simpl in Hb; try done.
      injection Hb as <-. exists names, name.
      by rewrite lookup_insert_eq.
    + by injection Hb as <-.
Qed.

End BuilderBlocks.

Section BuilderEdges.
Context `{PyLib}.
Variable self : ExternalListingsService.
Implicit Types (params : gmap string pyval) (k : string).

(** X6: when the first region with the filter's region id has no usable last
    name (the [names] column is NULL or empty, or its last entry is NULL), no
    query is built and [get_listings] raises the internal-error
    [ApiException], whatever the client would answer. *)
Theorem broken_region_row_fails client (fm : FilterModel.t) pagination regions reg :
  truthy_ints (FilterModel.Types fm) = true ->
  FilterModel.RegionId fm ≠ 0 ->
  dic_regions_load (db self) = Ok regions ->
  List.find (fun reg => DbRegion.id reg =? FilterModel.RegionId fm) regions = Some reg ->
  DbRegion.names reg = None
  \/ (exists names, DbRegion.names reg = Some names
                    /\ (last names = None \/ last names = Some None)) ->
  is_Ok (_build_query_filters self (Some fm) pagination) = false
  /\ get_listings self client (Some fm) pagination
     = Raise (ApiException "Internal error in listings service").
Proof.
  intros Htypes Hnz Hload Hfind Hbad.
  assert (Hraise : exists e,
             _build_query_filters self (Some fm) pagination = Raise e
             /\ is_TimeoutException e = false).
  { rewrite build_filters_with_types by done. unfold region_param.
    destruct (FilterModel.RegionId fm =? 0) eqn:Hz; [lia|]. simpl.
    rewrite Hload. simpl. rewrite region_loop_find, Hfind.
    unfold last_name_capitalized.
    destruct Hbad as [-> | (names & -> & [-> | ->])]; simpl; eauto. }
  destruct Hraise as (e & Hb & He). split; [by rewrite Hb|].
  unfold get_listings, _build_query_params_pagination. rewrite Hb. simpl.
  unfold outer_handler. by rewrite He.
Qed.

(** X7: the missed-count query carries [id] exactly when the last viewed id
    is given and not 0, and then it is that id; it never has [limit] or
    [direction]. *)
Theorem missed_params filter_model pagination params :
  _build_query_params_missed self filter_model pagination = Ok params ->
  params !! "id"
  = match ReadAdvertsRequest.LastViewId pagination with
    | Some last => if last =? 0 then None else Some (PInt last)
    | None => None
    end
  /\ params !! "limit" = None
  /\ params !! "direction" = None.
Proof.
  unfold _build_query_params_missed.
  destruct (_build_query_filters self filter_model pagination) as [params0|] eqn:Hb;
    simpl; [|done].
  apply build_filters_Ok in Hb as (fm & _ & _ & _ & _ & _ & _ & _ & _ & _ & Hl & Hd & Hi).
  destruct (ReadAdvertsRequest.LastViewId pagination) as [last|]; simpl.
  - destruct (last =? 0); simpl; intros [= <-];
      rewrite ?lookup_insert_eq; rewrite ?lookup_insert_ne by done; done.
  - by intros [= <-].
Qed.

(** X8: the listings query and the missed-count query of one request agree
    on every key other than [limit], [direction] and [id]. *)
Theorem pagination_and_missed_agree filter_model pagination params_pagination
    params_missed k :
  _build_query_params_pagination self filter_model pagination = Ok params_pagination ->
  _build_query_params_missed self filter_model pagination = Ok params_missed ->
  k ≠ "limit" -> k ≠ "direction" -> k ≠ "id" ->
  params_pagination !! k = params_missed !! k.
Proof.
  intros Hp Hm Hl Hd Hi.
  destruct (built_lookup self filter_model pagination params_pagination)
    as (p1 & Hb1 & Hk1); [by right; left|].
  destruct (built_lookup self filter_model pagination params_missed)
    as (p2 & Hb2 & Hk2); [by right; right|].
  rewrite Hk1, Hk2 by done. congruence.
Qed.

End BuilderEdges.

(** ** The expansion of the type filter *)

Lemma reverse_building_type_mapping_lookup t bts :
  reverse_building_type_mapping !! t = Some bts ->
  (t = 1 /\ bts = [OTHER])
  \/ (t = 2 /\ bts = [BLOCK; APARTMENT_BUILDING; INFILL; RIBBON; LOFT])
  \/ (t = 3 /\ bts = [TENEMENT; HOUSE; WOLNOSTOJACY]).
Proof.
  unfold reverse_building_type_mapping. simpl. intros Hl.
  destruct (decide (t = 1)) as [-> | ?];
    [rewrite lookup_insert_eq in Hl; left; by injection Hl as <-
    |rewrite lookup_insert_ne in Hl by done].
  destruct (decide (t = 2)) as [-> | ?];
    [rewrite lookup_insert_eq in Hl; right; left; by injection Hl as <-
    |rewrite lookup_insert_ne in Hl by done].
  destruct (decide (t = 3)) as [-> | ?];
    [rewrite lookup_insert_eq in Hl; right; right; by injection Hl as <-
    |rewrite lookup_insert_ne in Hl by done].
  by rewrite lookup_empty in Hl.
Qed.

(** X9: the reverse mapping lists every building type under one type id
    only, so a type filter without repeated ids expands to a list without
    repeated building types. *)
Theorem expand_types_NoDup (types : list Z) :
  NoDup types -> NoDup (expand_types types).
Proof.
  intros Hnd. unfold expand_types. apply NoDup_bind; [| |done].
  - intros t1 t2 s _ _ H1 H2.
    destruct (reverse_building_type_mapping !! t1) as [bts1|] eqn:Hr1;
      [|by apply not_elem_of_nil in H1].
    destruct (reverse_building_type_mapping !! t2) as [bts2|] eqn:Hr2;
      [|by apply not_elem_of_nil in H2].
    apply reverse_building_type_mapping_lookup in Hr1, Hr2.
    destruct Hr1 as [[-> ->] | [[-> ->] | [-> ->]]];
      destruct Hr2 as [[-> ->] | [[-> ->] | [-> ->]]];
      try done; exfalso; apply list_elem_of_In in H1, H2; simpl in H1, H2;
      intuition congruence.
  - intros t _.
    destruct (reverse_building_type_mapping !! t) as [bts|] eqn:Hr;
      [|constructor].
    apply reverse_building_type_mapping_lookup in Hr.
    destruct Hr as [[-> ->] | [[-> ->] | [-> ->]]]; simpl;
      apply NoDup_ListNoDup; repeat constructor; simpl; intuition congruence.
Qed.

(** ** Outcomes of the fetch *)

Section FetchOutcomes.
Context `{PyLib}.
Variable self : ExternalListingsService.
Variable client : AsyncClient.

Lemma missed_returns filter_model pagination params :
  _build_query_params_missed self filter_model pagination = Ok params ->
  is_Ok (get_missed self client filter_model pagination) = true.
Proof.
  intros Hb. unfold get_missed. rewrite Hb. simpl.
  destruct (client _ params) as [resp|]; simpl; [|done].
  destruct (status_code resp =? 200); [|done].
  destruct (json resp) as [data|]; simpl; [|done].
  by destruct data.
Qed.

(** X10: whatever [get_listings] and [get_missed] raise is an [ApiException]
    with one of the two messages of the service. *)
Theorem fetch_raises_only_ApiException filter_model pagination e :
  get_listings self client filter_model pagination = Raise e
  \/ get_missed self client filter_model pagination = Raise e ->
  e = ApiException "External listings API timeout"
  \/ e = ApiException "Internal error in listings service".
Proof.
  intros [Hr | Hr].
  - destruct (_build_query_params_pagination self filter_model pagination)
      as [params|e'] eqn:Hb.
    + apply (fetch_returns self client) in Hb. rewrite Hr in Hb. done.
    + unfold get_listings in Hr. rewrite Hb in Hr. simpl in Hr.
      unfold outer_handler in Hr. destruct (is_TimeoutException e'); naive_solver.
  - destruct (_build_query_params_missed self filter_model pagination)
      as [params|e'] eqn:Hb.
    + apply missed_returns in Hb. rewrite Hr in Hb. done.
    + unfold get_missed in Hr. rewrite Hb in Hr. simpl in Hr.
      unfold outer_handler in Hr. destruct (is_TimeoutException e'); naive_solver.
Qed.

(** X11: [get_listings] returns a value exactly when the filter builder
    does, and so does [get_missed]: nothing that happens in the request
    decides between returning and raising. *)
Theorem fetch_returns_iff_built filter_model pagination :
  is_Ok (get_listings self client filter_model pagination)
  = is_Ok (_build_query_filters self filter_model pagination)
  /\ is_Ok (get_missed self client filter_model pagination)
     = is_Ok (_build_query_filters self filter_model pagination).
Proof.
  split.
  - destruct (_build_query_params_pagination self filter_model pagination)
      as [params|e] eqn:Hb.
    + rewrite (fetch_returns self client _ _ _ Hb).
      unfold _build_query_params_pagination in Hb.
      by destruct (_build_query_filters self filter_model pagination).
    + pose proof (proj1 (proj1 (builders_fail_together self filter_model pagination e))
                    Hb) as Hf.
      rewrite Hf. unfold get_listings. rewrite Hb. simpl. unfold outer_handler.
      by destruct (is_TimeoutException e).
  - destruct (_build_query_params_missed self filter_model pagination)
      as [params|e] eqn:Hb.
    + rewrite (missed_returns _ _ _ Hb).
      unfold _build_query_params_missed in Hb.
      by destruct (_build_query_filters self filter_model pagination).
    + pose proof (proj1 (proj2 (builders_fail_together self filter_model pagination e))
                    Hb) as Hf.
      rewrite Hf. unfold get_missed. rewrite Hb. simpl. unfold outer_handler.
      by destruct (is_TimeoutException e).
Qed.

(** X12: on a 200 answer [get_listings] returns what the body has under
    [items] and [get_missed] what it has under [total], whatever the type of
    that value; the results are the empty list and 0 when the key is missing,
    the body is not an object or the body cannot be decoded. *)
Theorem ok_status_returns_body filter_model pagination :
  (forall params resp,
     _build_query_params_pagination self filter_model pagination = Ok params ->
     client (base_url self +:+ endpoint self) params = Ok resp ->
     status_code resp = 200 ->
     get_listings self client filter_model pagination
     = Ok (match json resp with
           | Ok (PDict body) => default (PList []) (body !! "items")
           | _ => PList []
           end))
  /\ (forall params resp,
        _build_query_params_missed self filter_model pagination = Ok params ->
        client (base_url self +:+ "/api/v1/listings/new/count") params = Ok resp ->
        status_code resp = 200 ->
        get_missed self client filter_model pagination
        = Ok (match json resp with
              | Ok (PDict body) => default (PInt 0) (body !! "total")
              | _ => PInt 0
              end)).
Proof.
  split; intros params resp Hb Hc Hs.
  - unfold get_listings. rewrite Hb. simpl. rewrite Hc. simpl. rewrite Hs. simpl.
    destruct (json resp) as [data|]; simpl; [|done]. by destruct data.
  - unfold get_missed. rewrite Hb. simpl. rewrite Hc. simpl. rewrite Hs. simpl.
    destruct (json resp) as [data|]; simpl; [|done]. by destruct data.
Qed.

(** X13: every exception of the request, not only the timeout, ends as the
    empty list in [get_listings] and as 0 in [get_missed]. *)
Theorem request_failure_is_empty filter_model pagination e :
  (forall params,
     _build_query_params_pagination self filter_model pagination = Ok params ->
     client (base_url self +:+ endpoint self) params = Raise e ->
     get_listings self client filter_model pagination = Ok (PList []))
  /\ (forall params,
        _build_query_params_missed self filter_model pagination = Ok params ->
        client (base_url self +:+ "/api/v1/listings/new/count") params = Raise e ->
        get_missed self client filter_model pagination = Ok (PInt 0)).
Proof.
  split; intros params Hb Hc.
  - unfold get_listings. rewrite Hb. simpl. by rewrite Hc.
  - unfold get_missed. rewrite Hb. simpl. by rewrite Hc.
Qed.

End FetchOutcomes.

(** ** Fields of a mapped record *)

Section MappedFields.
Context `{PyLib} `{Pydantic}.

Lemma source_mapping_range s : 0 <= default 0 (source_mapping !! s) <= 6.
Proof.
  unfold source_mapping. simpl.
  repeat match goal with
         | |- context [<[?k := _]> _ !! s] =>
             destruct (decide (k = s)) as [<- | ?];
             [rewrite lookup_insert_eq; simpl; lia | rewrite lookup_insert_ne by done]
         end.
  rewrite lookup_empty. simpl. lia.
Qed.

Lemma type_mapping_lookup s :
  default 1 (type_mapping !! s) = if decide (s = "SALE") then 2 else 1.
Proof.
  unfold type_mapping. simpl.
  destruct (decide ("RENT" = s)) as [<- | ?]; [by rewrite lookup_insert_eq|].
  rewrite lookup_insert_ne by done.
  destruct (decide (s = "SALE")) as [-> | ?]; [by rewrite lookup_insert_eq|].
  rewrite lookup_insert_ne by done. by rewrite lookup_empty.
Qed.

Lemma validate_optional_not_None {A} (validate : pyval -> result A) v r :
  v ≠ PNone -> validate_optional validate v = Ok r -> r ≠ None.
Proof.
  intros Hv. destruct v; try done; simpl;
    (destruct (validate _); simpl; [by intros [= <-] | done]).
Qed.

(** The fields of a mapped record, next to those of [map_listing_Ok]. *)
Lemma map_listing_fields clock (d : gmap string pyval) advert :
  map_listing_to_advert_try clock (PDict d) = Ok advert ->
  (exists photos,
     (if truthy (default PNone (d !! "photos_urls"))
      then first ← py_first (default (PList []) (d !! "photos_urls")); Ok (PList [first])
      else Ok (PList [])) = Ok photos
     /\ validate_list validate_str photos = Ok (AdvertModel.photos advert))
  /\ table_get source_mapping (default (PStr "unknown") (d !! "source")) 0
     = Ok (AdvertModel.sourceId advert)
  /\ table_get type_mapping (default (PStr "RENT") (d !! "offer_type")) 1
     = Ok (AdvertModel.typeId advert)
  /\ validate_str (if truthy (default (PStr "") (d !! "city"))
                   then default (PStr "") (d !! "city")
                   else default (PStr "") (d !! "region"))
     = Ok (AdvertModel.region advert)
  /\ validate_optional validate_str
       (py_or (default (PStr "") (d !! "district")) (PStr ""))
     = Ok (AdvertModel.district advert)
  /\ exists ms_parsed,
       epoch_ms (_parse_datetime (now_parsed clock) (default PNone (d !! "parsed_at")))
       = Ok ms_parsed
       /\ AdvertModel.date advert = Some ms_parsed.
Proof.
  intros Hm. unfold map_listing_to_advert_try in Hm.
  cbn [py_get mbind result_bind] in Hm. bind_inv Hm.
  injection Hm as <-. simpl.
  rewrite validate_optional_int_exact, ?validate_int_exact in *. simplify_eq.
  repeat split; eauto.
  - destruct (truthy (default (PStr "") (d !! "city"))); by simplify_eq.
Qed.

(** X14: a mapped record has at most one photo: none when [photos_urls] is
    missing, null or empty, and the first entry when it is a list that starts
    with a string. *)
Theorem photos_at_most_one clock (d : gmap string pyval) advert :
  map_listing_to_advert clock (PDict d) = Some advert ->
  (length (AdvertModel.photos advert) <= 1)%nat
  /\ (truthy (default PNone (d !! "photos_urls")) = false ->
      AdvertModel.photos advert = [])
  /\ (forall url rest,
        d !! "photos_urls" = Some (PList (PStr url :: rest)) ->
        AdvertModel.photos advert = [url]).
Proof.
  intros Hm%map_listing_Some.
  apply map_listing_fields in Hm as ((photos & Hp & Hv) & _).
  split; [|split].
  - destruct (truthy (default PNone (d !! "photos_urls"))).
    + destruct (py_first _) as [first|]; simpl in Hp; [|done].
      injection Hp as <-. simpl in Hv.
      destruct (validate_str first); simpl in Hv; [|done].
      injection Hv as <-. simpl. lia.
    + injection Hp as <-. simpl in Hv. injection Hv as <-. simpl. lia.
  - intros Hf. rewrite Hf in Hp. injection Hp as <-. by injection Hv as <-.
  - intros url rest Hd. rewrite Hd in Hp. simpl in Hp. injection Hp as <-.
    simpl in Hv. rewrite validate_str_exact in Hv. by injection Hv as <-.
Qed.

(** X15: in a mapped record [sourceId] is between 0 and 6, it is 0 for a
    source that is missing or not in the table of sources, and [typeId] is 2
    when [offer_type] is the string [SALE] and 1 in every other case. *)
Theorem source_and_type_ids clock (d : gmap string pyval) advert :
  map_listing_to_advert clock (PDict d) = Some advert ->
  0 <= AdvertModel.sourceId advert <= 6
  /\ (d !! "source" = None -> AdvertModel.sourceId advert = 0)
  /\ (forall s, d !! "source" = Some (PStr s) -> source_mapping !! s = None ->
                AdvertModel.sourceId advert = 0)
  /\ (AdvertModel.typeId advert = 1 \/ AdvertModel.typeId advert = 2)
  /\ (AdvertModel.typeId advert = 2 <-> d !! "offer_type" = Some (PStr "SALE")).
Proof.
  intros Hm%map_listing_Some.
  apply map_listing_fields in Hm as (_ & Hs & Ht & _).
  assert (Htype : exists s,
             AdvertModel.typeId advert = (if decide (s = "SALE") then 2 else 1)
             /\ (s = "SALE" <-> d !! "offer_type" = Some (PStr "SALE"))).
  { destruct (d !! "offer_type") as [offer_type|] eqn:Ho; simpl in Ht.
    - destruct offer_type as [| | | |s| |]; simpl in Ht; try done;
        injection Ht as <-; try (exists "RENT"; split; [done|]; split; done).
      exists s. rewrite type_mapping_lookup. split; [done|].
      split; [by intros ->|by intros [= ->]].
    - injection Ht as <-. exists "RENT". split; [done|]. split; done. }
  split; [|split; [|split; [|split]]].
  - destruct (default (PStr "unknown") (d !! "source")) as [| | | |s| |];
      simpl in Hs; try done; injection Hs as <-; try lia.
    apply source_mapping_range.
  - intros Hd. rewrite Hd in Hs. simpl in Hs. by injection Hs as <-.
  - intros s Hd Hnone. rewrite Hd in Hs. simpl in Hs. rewrite Hnone in Hs.
    by injection Hs as <-.
  - destruct Htype as (s & -> & _). case_decide; [by right | by left].
  - destruct Htype as (s & -> & <-). by case_decide.
Qed.

(** X16: [district] of a mapped record is never [None], it is the empty
    string for a missing, null or empty [district]; [region] is the
    provider's [city] when that is a non-empty string and otherwise the
    provider's [region], the empty string when that is missing too. *)
Theorem region_and_district clock (d : gmap string pyval) advert :
  map_listing_to_advert clock (PDict d) = Some advert ->
  AdvertModel.district advert ≠ None
  /\ (truthy (default (PStr "") (d !! "district")) = false ->
      AdvertModel.district advert = Some "")
  /\ (forall city, d !! "city" = Some (PStr city) -> city ≠ "" ->
                   AdvertModel.region advert = city)
  /\ (truthy (default (PStr "") (d !! "city")) = false ->
      (forall region, d !! "region" = Some (PStr region) ->
                      AdvertModel.region advert = region)
      /\ (d !! "region" = None -> AdvertModel.region advert = "")).
Proof.
  intros Hm%map_listing_Some.
  apply map_listing_fields in Hm as (_ & _ & _ & Hr & Hd & _).
  split; [|split; [|split]].
  - apply (validate_optional_not_None _ _ _) in Hd; [done|].
    unfold py_or.
    destruct (truthy (default (PStr "") (d !! "district"))) eqn:Ht; [|done].
    by intros Hn; rewrite Hn in Ht.
  - intros Hf. unfold py_or in Hd. rewrite Hf in Hd. simpl in Hd.
    rewrite validate_str_exact in Hd. by injection Hd as <-.
  - intros city Hc Hne. rewrite Hc in Hr. simpl in Hr.
    destruct (String.eqb city "") eqn:He; [by apply String.eqb_eq in He|].
    simpl in Hr. rewrite validate_str_exact in Hr. by injection Hr as <-.
  - intros Hf. rewrite Hf in Hr. split.
    + intros region Hreg. rewrite Hreg in Hr. simpl in Hr.
      rewrite validate_str_exact in Hr. by injection Hr as <-.
    + intros Hreg. rewrite Hreg in Hr. simpl in Hr.
      rewrite validate_str_exact in Hr. by injection Hr as <-.
Qed.

(** X17: a record is dropped, whatever the validators accept, when it is not
    an object, when its [source] or [offer_type] is a list or an object, and
    when its [photos_urls] is a number other than 0, [true] or a non-empty
    object. *)
Theorem unmappable_records clock (listing : pyval) :
  (forall d, listing ≠ PDict d)
  \/ (exists d key v,
        listing = PDict d /\ (key = "source" \/ key = "offer_type")
        /\ d !! key = Some v
        /\ ((exists xs, v = PList xs) \/ (exists o, v = PDict o)))
  \/ (exists d v,
        listing = PDict d /\ d !! "photos_urls" = Some v /\ truthy v = true
        /\ (forall xs, v ≠ PList xs) /\ (forall s, v ≠ PStr s)) ->
  map_listing_to_advert clock listing = None.
Proof.
  intros Hbad.
  destruct (map_listing_to_advert clock listing) as [advert|] eqn:Hm; [|done].
  exfalso. apply map_listing_Some in Hm.
  destruct Hbad as [Hnd | [(d & key & v & -> & Hkey & Hd & Hv)
                           | (d & v & -> & Hd & Ht & Hnl & Hns)]].
  - destruct listing; try done. by eapply Hnd.
  - apply map_listing_fields in Hm as (_ & Hs & Hty & _).
    destruct Hkey as [-> | ->]; [rewrite Hd in Hs | rewrite Hd in Hty];
      destruct Hv as [[xs ->] | [o ->]]; done.
  - apply map_listing_fields in Hm as ((photos & Hp & _) & _).
    rewrite Hd in Hp. simpl in Hp. rewrite Ht in Hp.
    destruct v as [|b|n|x|s|xs|o]; simpl in Hp; try done.
    + by eapply Hns.
    + by eapply Hnl.
Qed.

End MappedFields.

(** ** Dates *)

Section Dates.
Context `{PyLib} `{Pydantic}.

Lemma parse_loop_all_fail datetime_str fmts :
  (forall fmt, fmt ∈ fmts -> py_strptime datetime_str fmt = Raise ValueError) ->
  parse_loop datetime_str fmts = Ok None.
Proof.
  induction fmts as [|fmt rest IH]; intros Hall; simpl; [done|].
  rewrite Hall by left. apply IH. intros f Hf. apply Hall. by right.
Qed.

Lemma parse_loop_first_match datetime_str pre fmt post d :
  (forall f, f ∈ pre -> py_strptime datetime_str f = Raise ValueError) ->
  py_strptime datetime_str fmt = Ok d ->
  parse_loop datetime_str (pre ++ fmt :: post) = Ok (Some d).
Proof.
  induction pre as [|f pre IH]; intros Hpre Hfmt; simpl.
  - by rewrite Hfmt.
  - rewrite Hpre by left. apply IH; [|done]. intros g Hg. apply Hpre. by right.
Qed.

(** X18: a date that is not a string, or a string that none of the four
    formats accepts, is replaced by the reading of the clock. *)
Theorem unparsable_date_is_now utcnow (datetime_str : pyval) :
  (forall s, datetime_str ≠ PStr s)
  \/ (forall fmt, fmt ∈ formats -> py_strptime datetime_str fmt = Raise ValueError) ->
  _parse_datetime utcnow datetime_str = utcnow.
Proof.
  intros [Hns | Hall]; unfold _parse_datetime.
  - destruct (truthy datetime_str); [|done]. simpl.
    destruct datetime_str; try done. by exfalso; eapply Hns.
  - rewrite (parse_loop_all_fail _ _ Hall). by destruct (truthy datetime_str).
Qed.

(** X19: the formats are tried in their order and the first one that accepts
    the string gives the date, whatever the later formats would give. *)
Theorem first_format_wins utcnow s pre fmt post d :
  formats = pre ++ fmt :: post ->
  s ≠ "" ->
  (forall f, f ∈ pre -> strptime s f = Raise ValueError) ->
  strptime s fmt = Ok d ->
  _parse_datetime utcnow (PStr s) = d.
Proof.
  intros Hfmts Hne Hpre Hfmt. unfold _parse_datetime.
  rewrite Hfmts, (parse_loop_first_match (PStr s) pre fmt post d) by done.
  simpl. destruct (String.eqb s "") eqn:He; [|done].
  by apply String.eqb_eq in He.
Qed.

(** X20: when the provider sends a [valid_to_time] that one of the formats
    accepts, [validTo] of the mapped record is that time. *)
Theorem valid_to_is_parsed clock (d : gmap string pyval) valid_to dt advert :
  d !! "valid_to_time" = Some valid_to ->
  truthy valid_to = true ->
  parse_loop valid_to formats = Ok (Some dt) ->
  map_listing_to_advert clock (PDict d) = Some advert ->
  exists ms, epoch_ms dt = Ok ms /\ AdvertModel.validTo advert = Some ms.
Proof.
  intros Hv Ht Hp Hm%map_listing_Some.
  apply map_listing_Ok in Hm as (_ & ms_created & ms & _ & Hev & _ & Hav).
  rewrite Hv in Hev. simpl in Hev.
  rewrite (_parse_datetime_parsed _ _ dt Ht Hp) in Hev. by exists ms.
Qed.

(** Mapping every item of a list to [None] leaves nothing. *)
Lemma omap_imap_None {A B} (f : nat -> A -> option B) (l : list A) :
  (forall i x, l !! i = Some x -> f i x = None) -> omap id (imap f l) = [].
Proof.
  revert f. induction l as [|x l IH]; intros f Hf; simpl; [done|].
  rewrite (Hf 0%nat x eq_refl). simpl. apply IH.
  intros i y Hy. apply (Hf (S i) y Hy).
Qed.

Lemma length_omap_le {A B} (f : A -> option B) (l : list A) :
  (length (omap f l) <= length l)%nat.
Proof.
  induction l as [|x l IH]; [done|]. cbn.
  destruct (f x); cbn; lia.
Qed.

(** X21: [get_listings_mapped] never returns more adverts than the page has
    records, and it returns the empty list when [get_listings] raises and
    when what [get_listings] returns is not a list. *)
Theorem mapped_page_bounds self client (clock : nat -> Clock) filter_model pagination :
  (forall e, get_listings self client filter_model pagination = Raise e ->
             get_listings_mapped self client clock filter_model pagination = [])
  /\ (forall v, get_listings self client filter_model pagination = Ok v ->
                (forall items, v ≠ PList items) ->
                get_listings_mapped self client clock filter_model pagination = [])
  /\ (forall items,
        get_listings self client filter_model pagination = Ok (PList items) ->
        (length (get_listings_mapped self client clock filter_model pagination)
         <= length items)%nat).
Proof.
  unfold get_listings_mapped. split; [|split].
  - intros e He. by rewrite He.
  - intros v Hv Hnl. rewrite Hv. simpl.
    destruct v as [|b|n|x|s|xs|o]; simpl; try done.
    + apply omap_imap_None. intros i x Hx.
      apply list_lookup_fmap_Some in Hx as (c & -> & _). done.
    + by exfalso; eapply Hnl.
    + apply omap_imap_None. intros i x Hx.
      apply list_lookup_fmap_Some in Hx as (c & -> & _). done.
  - intros items Hv. rewrite Hv. simpl.
    etrans; [apply length_omap_le|]. by rewrite length_imap.
Qed.

End Dates.

(** ** The district name cache *)

Section DistrictCache.
Implicit Types (self : DistrictMappingService.t) (db : AsyncSession).

(** Filling the cache row by row: for every id the last row with it wins. *)
Lemma load_rows_lookup (districts : list DbDistrict.t) (cache : gmap Z string) k :
  foldl (fun cache d => <[DbDistrict.id d := DbDistrict.name d]> cache) cache districts
  !! k
  = match last (filter (fun d => DbDistrict.id d = k) districts) with
    | Some d => Some (DbDistrict.name d)
    | None => cache !! k
    end.
Proof.
  revert cache. induction districts as [|x l IH]; intros cache; simpl; [done|].
  rewrite IH, filter_cons. case_decide as Hx.
  - rewrite last_cons. destruct (last (filter _ l)); [done|].
    by rewrite <- Hx, lookup_insert_eq.
  - destruct (last (filter _ l)); [done|]. by rewrite lookup_insert_ne.
Qed.

Lemma load_marks_loaded db self :
  DistrictMappingService._cache_loaded
    (DistrictMappingService._load_district_cache db self) = true.
Proof.
  unfold DistrictMappingService._load_district_cache.
  by destruct (dic_region_districts_load db).
Qed.

(** X22: the table of districts is read at most once: after a first call the
    service is marked as loaded, whether the read worked or not, and the
    names it returns no longer depend on the database; after a failed read
    into an empty cache no id is resolved any more. *)
Theorem districts_loaded_once db self ids :
  let self' := (DistrictMappingService.get_district_names db self ids).2 in
  DistrictMappingService._cache_loaded self' = true
  /\ (forall db1 db2 ids',
        DistrictMappingService.get_district_names db1 self' ids'
        = DistrictMappingService.get_district_names db2 self' ids')
  /\ (forall e db' ids',
        DistrictMappingService._cache_loaded self = false ->
        DistrictMappingService._district_cache self = ∅ ->
        dic_region_districts_load db = Raise e ->
        (DistrictMappingService.get_district_names db' self' ids').1 = []).
Proof.
  intros self'.
  assert (Hloaded : DistrictMappingService._cache_loaded self' = true).
  { unfold self', DistrictMappingService.get_district_names. simpl.
    destruct (DistrictMappingService._cache_loaded self) eqn:Hl; [done|].
    apply load_marks_loaded. }
  split; [done|]. split.
  - intros db1 db2 ids'. unfold DistrictMappingService.get_district_names.
    by rewrite Hloaded.
  - intros e db' ids' Hnl Hempty Hfail.
    unfold DistrictMappingService.get_district_names at 1. rewrite Hloaded. simpl.
    unfold self', DistrictMappingService.get_district_names. simpl. rewrite Hnl.
    unfold DistrictMappingService._load_district_cache. rewrite Hfail. simpl.
    rewrite Hempty. induction ids' as [|id ids' IH]; [done|]. cbn.
    by rewrite lookup_empty.
Qed.

(** X23: on a fresh service an id is resolved to the name of the last row of
    the table that has this id, and to [None] when no row has it. *)
Theorem district_name_is_last_row db districts district_id :
  dic_region_districts_load db = Ok districts ->
  (get_district_name db DistrictMappingService.init district_id).1
  = DbDistrict.name
      <$> last (filter (fun d => DbDistrict.id d = district_id) districts).
Proof.
  intros Hload. unfold get_district_name. simpl.
  unfold DistrictMappingService._load_district_cache. rewrite Hload. simpl.
  rewrite load_rows_lookup. by destruct (last _).
Qed.

(** X24: every name [get_district_names] returns is not empty and is what
    [get_district_name] gives for one of the ids, and there are no more
    names than ids. *)
Theorem district_names_resolved db self ids :
  let names := (DistrictMappingService.get_district_names db self ids).1 in
  (length names <= length ids)%nat
  /\ forall name, name ∈ names ->
       name ≠ ""
       /\ exists district_id,
            district_id ∈ ids
            /\ (get_district_name db self district_id).1 = Some name.
Proof.
  intros names. unfold names, DistrictMappingService.get_district_names,
    get_district_name. simpl. split.
  - apply length_omap_le.
  - intros name (district_id & Hid & Hname)%list_elem_of_omap.
    destruct (_ !! district_id) as [cached|] eqn:Hcache; [|done].
    destruct (String.eqb cached "") eqn:He; [done|].
    injection Hname as ->. split.
    + intros ->. by rewrite String.eqb_refl in He.
    + by exists district_id.
Qed.

(** X25: [refresh_cache] forgets the names it held: after it an id is
    resolved from the table just read only, and when that read fails no id is
    resolved while the list of API models stays the one from before. *)
Theorem refresh_replaces_names db db' self district_id :
  (forall districts,
     dic_region_districts_load db = Ok districts ->
     (get_district_name db' (refresh_cache db self) district_id).1
     = DbDistrict.name
         <$> last (filter (fun d => DbDistrict.id d = district_id) districts))
  /\ (forall e,
        dic_region_districts_load db = Raise e ->
        (get_district_name db' (refresh_cache db self) district_id).1 = None
        /\ (get_distincts_api_models db' (refresh_cache db self)).1
           = DistrictMappingService._api_models self).
Proof.
  unfold get_district_name, get_distincts_api_models, refresh_cache.
  rewrite load_marks_loaded. simpl.
  unfold DistrictMappingService._load_district_cache. split.
  - intros districts ->. simpl. rewrite load_rows_lookup. by destruct (last _).
  - by intros e ->.
Qed.

End DistrictCache.

(** ** Validation of the filter to save *)

Lemma existsb_false_Forall {A} (f : A -> bool) (l : list A) :
  existsb f l = false <-> Forall (fun x => f x = false) l.
Proof.
  induction l as [|x l IH]; simpl.
  - split; [constructor | done].
  - rewrite orb_false_iff, IH, Forall_cons. done.
Qed.

Lemma guarded_existsb_false (f : Z -> bool) (ids : option (list Z)) :
  truthy_ints ids && existsb f (default [] ids) = false
  <-> Forall (fun x => f x = false) (default [] ids).
Proof.
  destruct ids as [[|x l]|]; simpl; try (split; [constructor | done]).
  apply (existsb_false_Forall f (x :: l)).
Qed.

Lemma negative_bound_false range bound :
  SaveFilterRequest.negative_bound range bound = false
  <-> forall r v, range = Some r -> bound r = Some v -> 0 <= v.
Proof.
  unfold SaveFilterRequest.negative_bound.
  destruct range as [r|]; [|split; [intros _ r v; done | done]].
  destruct (bound r) as [v|] eqn:Hb.
  - rewrite Z.ltb_ge. split.
    + intros Hv r' v' [= <-] Hb'. rewrite Hb in Hb'. by injection Hb' as <-.
    + intros Hall. by apply (Hall r v).
  - split; [|done]. intros _ r' v' [= <-] Hb'. by rewrite Hb in Hb'.
Qed.

(** X26: [ThrowIfInvalid] lets a filter pass exactly when the country id and
    the region id are not 0 (a negative id passes), no district id is
    negative, every type id and room count is positive, and the lower bound
    of the area and both bounds of the price, where given, are not negative;
    what it raises is always a [ValidationRequiredParameter] with status 400. *)
Theorem filter_passes_iff (m : FilterModel.t) :
  (SaveFilterRequest.ThrowIfInvalid m = Passes
   <-> FilterModel.CountryId m ≠ 0
       /\ FilterModel.RegionId m ≠ 0
       /\ Forall (fun district => 0 <= district) (default [] (FilterModel.Districts m))
       /\ Forall (fun type => 0 < type) (default [] (FilterModel.Types m))
       /\ Forall (fun room => 0 < room) (default [] (FilterModel.Rooms m))
       /\ (forall r v, FilterModel.Area m = Some r -> RangeModel.from_ r = Some v ->
                       0 <= v)
       /\ (forall r v, FilterModel.Price m = Some r -> RangeModel.from_ r = Some v ->
                       0 <= v)
       /\ (forall r v, FilterModel.Price m = Some r -> RangeModel.to r = Some v ->
                       0 <= v))
  /\ (forall e, SaveFilterRequest.ThrowIfInvalid m = Throws e ->
                custom_exceptions.cls e = custom_exceptions.ValidationRequiredParameter
                /\ custom_exceptions.status_code e = 400).
Proof.
  unfold SaveFilterRequest.ThrowIfInvalid. split.
  - rewrite <- !negative_bound_false.
    rewrite <- (Z.eqb_neq (FilterModel.CountryId m)),
      <- (Z.eqb_neq (FilterModel.RegionId m)).
    assert (Hd : Forall (fun district => 0 <= district)
                   (default [] (FilterModel.Districts m))
                 <-> truthy_ints (FilterModel.Districts m)
                     && existsb (fun district => district <? 0)
                          (default [] (FilterModel.Districts m)) = false).
    { rewrite guarded_existsb_false. apply Forall_proper; [|done].
      intros x. by rewrite Z.ltb_ge. }
    assert (Ht : Forall (fun type => 0 < type) (default [] (FilterModel.Types m))
                 <-> truthy_ints (FilterModel.Types m)
                     && existsb (fun type => type <=? 0)
                          (default [] (FilterModel.Types m)) = false).
    { rewrite guarded_existsb_false. apply Forall_proper; [|done].
      intros x. by rewrite Z.leb_gt. }
    assert (Hr : Forall (fun room => 0 < room) (default [] (FilterModel.Rooms m))
                 <-> truthy_ints (FilterModel.Rooms m)
                     && existsb (fun room => room <=? 0)
                          (default [] (FilterModel.Rooms m)) = false).
    { rewrite guarded_existsb_false. apply Forall_proper; [|done].
      intros x. by rewrite Z.leb_gt. }
    rewrite Hd, Ht, Hr.
    repeat match goal with
           | |- context [if ?c then _ else _] => destruct c
           end; simpl; intuition congruence.
  - intros e.
    repeat match goal with
           | |- context [if ?c then _ else _] => destruct c
           end; intros [= <-]; done.
Qed.

(** X27: [ThrowIfInvalid] never looks at the upper bound of the area: a
    filter passes or fails in the same way whatever that bound is. *)
Theorem area_to_is_not_validated (m : FilterModel.t) (r : RangeModel.t) (hi : option Z) :
  FilterModel.Area m = Some r ->
  SaveFilterRequest.ThrowIfInvalid
    {| FilterModel.CountryId := FilterModel.CountryId m;
       FilterModel.RegionId := FilterModel.RegionId m;
       FilterModel.Districts := FilterModel.Districts m;
       FilterModel.Types := FilterModel.Types m;
       FilterModel.Rooms := FilterModel.Rooms m;
       FilterModel.Agency := FilterModel.Agency m;
       FilterModel.Area :=
         Some {| RangeModel.from_ := RangeModel.from_ r; RangeModel.to := hi |};
       FilterModel.Price := FilterModel.Price m |}
  = SaveFilterRequest.ThrowIfInvalid m.
Proof.
  intros Ha. unfold SaveFilterRequest.ThrowIfInvalid,
    SaveFilterRequest.negative_bound. simpl. by rewrite Ha.
Qed.

(** ** The stored filter *)

Section StoredFilter.
Context `{PyLib} `{Pydantic}.

Lemma validate_int_list_exact (ids : list Z) :
  validate_list validate_int (PList (PInt <$> ids)) = Ok ids.
Proof.
  unfold validate_list. induction ids as [|x l IH]; [done|].
  rewrite fmap_cons. simpl. rewrite validate_int_exact. simpl.
  by rewrite IH.
Qed.

Lemma validate_ids_exact (ids : list Z) :
  validate_optional (validate_list validate_int) (PList (PInt <$> ids)) = Ok (Some ids).
Proof.
  unfold validate_optional. by rewrite validate_int_list_exact.
Qed.

Lemma py_or_ids (ids : list Z) :
  py_or (PList (PInt <$> ids)) (PList []) = PList (PInt <$> ids).
Proof. by destruct ids. Qed.

(** What a filter read from the database says about its row. *)
Lemma Read_Ok get unique_id fm :
  DbFilter.Read get unique_id = Ok fm ->
  exists row area price,
    get unique_id = Ok (Some row)
    /\ validate_optional (validate_list validate_int)
         (py_or (default PNone (row !! "types")) (PList []))
       = Ok (FilterModel.Types fm)
    /\ FilterModel.Area fm = Some area
    /\ FilterModel.Price fm = Some price
    /\ (exists v, row !! "area_from" = Some v
                  /\ validate_optional validate_int v = Ok (RangeModel.from_ area))
    /\ (exists v, row !! "area_to" = Some v
                  /\ validate_optional validate_int v = Ok (RangeModel.to area))
    /\ (exists v, row !! "price_from" = Some v
                  /\ validate_optional validate_int v = Ok (RangeModel.from_ price))
    /\ (exists v, row !! "price_to" = Some v
                  /\ validate_optional validate_int v = Ok (RangeModel.to price)).
Proof.
  unfold DbFilter.Read, read_mapping_first_or_default.
  destruct (get unique_id) as [[row|]|]; simpl; try done.
  destruct (bool_decide (row = ∅)); simpl; [done|].
  unfold dict_getitem, DbFilter.range_of. intros Hr.
  repeat match type of Hr with
         | context [match ?o with Some _ => _ | None => _ end] =>
             let E := fresh "E" in destruct o eqn:E; simpl in Hr; [|done]
         end.
  bind_inv Hr. injection Hr as <-. simpl.
  repeat match goal with
         | E : (_ ≫= _) = Ok _ |- _ => bind_inv E; injection E as <-
         | E : match ?o with Some _ => _ | None => _ end = Ok _ |- _ =>
             destruct o eqn:?; [injection E as <- | done]
         end.
  simpl. eexists row, _, _. repeat split; eauto.
Qed.

(** X28: reading back a row that holds what [Save] passed to the stored
    function gives the saved filter with every missing list as the empty
    list and every missing range or bound as 0 and [2147483647]. *)
Theorem save_then_read unique_id (m : FilterModel.t) :
  DbFilter.Read (fun _ => Ok (Some (DbFilter.save_params unique_id m))) unique_id
  = Ok {| FilterModel.CountryId := FilterModel.CountryId m;
          FilterModel.RegionId := FilterModel.RegionId m;
          FilterModel.Districts := Some (DbFilter.ids_or_empty (FilterModel.Districts m));
          FilterModel.Types := Some (DbFilter.ids_or_empty (FilterModel.Types m));
          FilterModel.Rooms := Some (DbFilter.ids_or_empty (FilterModel.Rooms m));
          FilterModel.Agency := FilterModel.Agency m;
          FilterModel.Area :=
            Some {| RangeModel.from_ :=
                      Some (DbFilter.bound_or (FilterModel.Area m) RangeModel.from_ 0);
                    RangeModel.to :=
                      Some (DbFilter.bound_or (FilterModel.Area m) RangeModel.to
                              2147483647) |};
          FilterModel.Price :=
            Some {| RangeModel.from_ :=
                      Some (DbFilter.bound_or (FilterModel.Price m) RangeModel.from_ 0);
                    RangeModel.to :=
                      Some (DbFilter.bound_or (FilterModel.Price m) RangeModel.to
                              2147483647) |} |}.
Proof.
  unfold DbFilter.Read, read_mapping_first_or_default. simpl.
  rewrite bool_decide_eq_false_2 by (unfold DbFilter.save_params; apply insert_non_empty).
  cbn [mbind result_bind]. unfold dict_getitem, DbFilter.save_params.
  repeat (rewrite ?lookup_insert_eq; rewrite ?lookup_insert_ne by done;
          cbn [mbind result_bind default]).
  unfold DbFilter.range_of. simpl.
  rewrite !validate_int_exact, validate_bool_exact. simpl.
  by rewrite !py_or_ids, !validate_ids_exact.
Qed.

(** X29: for a filter read from a row whose four bound columns hold
    integers, every built query carries all four bounds with the values of
    the columns. *)
Theorem stored_filter_sends_bounds self get unique_id row fm pagination params
    price_from price_to area_from area_to :
  get unique_id = Ok (Some row) ->
  row !! "price_from" = Some (PInt price_from) ->
  row !! "price_to" = Some (PInt price_to) ->
  row !! "area_from" = Some (PInt area_from) ->
  row !! "area_to" = Some (PInt area_to) ->
  DbFilter.Read get unique_id = Ok fm ->
  built self (Some fm) pagination params ->
  params !! "min_price" = Some (PInt price_from)
  /\ params !! "max_price" = Some (PInt price_to)
  /\ params !! "min_area" = Some (PInt area_from)
  /\ params !! "max_area" = Some (PInt area_to).
Proof.
  intros Hget Hpf Hpt Haf Hat Hread Hbuilt.
  apply Read_Ok in Hread
    as (row' & area & price & Hget' & _ & Ha & Hp
        & (v1 & Hv1 & Hr1) & (v2 & Hv2 & Hr2) & (v3 & Hv3 & Hr3) & (v4 & Hv4 & Hr4)).
  rewrite Hget in Hget'. injection Hget' as <-.
  rewrite Haf in Hv1. rewrite Hat in Hv2. rewrite Hpf in Hv3. rewrite Hpt in Hv4.
  simplify_eq. rewrite validate_optional_int_exact in *. simplify_eq.
  destruct (built_lookup _ _ _ _ Hbuilt) as (params0 & Hb & Hk).
  rewrite !Hk by done.
  apply build_filters_Ok in Hb
    as (fm' & [= <-] & _ & _ & _ & Hp1 & Hp2 & Ha1 & Ha2 & _).
  rewrite Hp1, Hp2, Ha1, Ha2, Ha, Hp. simpl.
  by rewrite <- Hr1, <- Hr2, <- Hr3, <- Hr4.
Qed.

(** X30: a filter read from a row whose [types] column is missing, NULL or
    an empty array has the empty list as its types, so for it [get_listings]
    raises the internal-error [ApiException]. *)
Theorem stored_filter_without_types_fails self client get unique_id row fm pagination :
  get unique_id = Ok (Some row) ->
  truthy (default PNone (row !! "types")) = false ->
  DbFilter.Read get unique_id = Ok fm ->
  FilterModel.Types fm = Some []
  /\ get_listings self client (Some fm) pagination
     = Raise (ApiException "Internal error in listings service").
Proof.
  intros Hget Hfalsy Hread.
  apply Read_Ok in Hread as (row' & _ & _ & Hget' & Ht & _).
  rewrite Hget in Hget'. injection Hget' as <-.
  unfold py_or in Ht. rewrite Hfalsy in Ht. simpl in Ht. injection Ht as Ht.
  split; [done|].
  assert (Hb : _build_query_filters self (Some fm) pagination = Raise KeyError).
  { apply (build_filters_without_types self (Some fm) pagination).
    right. exists fm. split; [done|]. by rewrite <- Ht. }
  unfold get_listings, _build_query_params_pagination. by rewrite Hb.
Qed.

End StoredFilter.

(** ** Runs of the further properties *)

Section BuilderBlockRuns.
#[local] Existing Instance pylib_utc.

Lemma built_keys_witness :
  exists params,
    _build_query_params_pagination Sample.service
      (Some (Sample.filter (Some [2]) true None None))
      (Sample.request (Some 42) LoadAdvertsDirection.Prev) = Ok params
    /\ params !! "offer_type" = Some (PStr "RENT")
    /\ forall k, is_Some (params !! k) ->
         k ∈ ["offer_type"; "building_type"; "min_price"; "max_price"; "min_area";
              "max_area"; "rooms"; "is_business"; "district"; "city";
              "limit"; "direction"; "id"].
Proof.
  run Hb. exact (built_keys Sample.service _ _ _ (or_intror (or_introl Hb))).
Defined.

Lemma rooms_passed_through_witness :
  exists params,
    _build_query_filters Sample.service (Some (Cases.filter (Some [2; 3])))
      (Sample.request None LoadAdvertsDirection.Latest) = Ok params
    /\ params !! "rooms" = Some (PList [PInt 2; PInt 3]).
Proof.
  run Hb.
  exact (rooms_passed_through Sample.service (Cases.filter (Some [2; 3])) _ _
           (or_introl Hb)).
Defined.

Lemma district_names_sent_witness :
  exists params,
    _build_query_filters Sample.service (Some (Cases.filter None))
      (Sample.request None LoadAdvertsDirection.Latest) = Ok params
    /\ params !! "district" = Some (PList [PStr "Wola"]).
Proof.
  run Hb.
  exact (district_names_sent Sample.service (Cases.filter None) _ _ (or_introl Hb)).
Defined.

Lemma city_is_first_match_witness :
  exists params,
    _build_query_filters Sample.service (Some (Cases.filter None))
      (Sample.request None LoadAdvertsDirection.Latest) = Ok params
    /\ exists names name,
         DbRegion.names Sample.warsaw = Some names
         /\ last names = Some (Some name)
         /\ params !! "city" = Some (PList [PStr (Strptime.capitalize name)]).
Proof.
  run Hb.
  refine (proj2 (city_is_first_match Sample.service (Cases.filter None) _ _
                   (or_introl Hb)) [Sample.warsaw] _ eq_refl).
  discriminate.
Defined.

Lemma broken_region_row_fails_witness :
  get_listings Cases.broken_service (Sample.answers 200 (PDict ∅))
    (Some (Cases.filter None)) (Sample.request None LoadAdvertsDirection.Latest)
  = Raise (ApiException "Internal error in listings service").
Proof.
  refine (proj2 (broken_region_row_fails Cases.broken_service _ (Cases.filter None) _
                   [Cases.nameless; Sample.warsaw] Cases.nameless
                   eq_refl _ eq_refl eq_refl _)).
  - discriminate.
  - right. exists []. split; [reflexivity | left; reflexivity].
Defined.

Lemma missed_params_witness :
  exists params,
    _build_query_params_missed Sample.service (Some (Cases.filter None))
      {| ReadAdvertsRequest.AdvertId := Some 42;
         ReadAdvertsRequest.Direction := LoadAdvertsDirection.Next;
         ReadAdvertsRequest.LastViewId := Some 40 |} = Ok params
    /\ params !! "id" = Some (PInt 40)
    /\ params !! "limit" = None
    /\ params !! "direction" = None.
Proof. run Hb. exact (missed_params Sample.service _ _ _ Hb). Defined.

Lemma pagination_and_missed_agree_witness :
  exists params_pagination,
    _build_query_params_pagination Sample.service (Some (Cases.filter None))
      (Sample.request (Some 42) LoadAdvertsDirection.Next) = Ok params_pagination
    /\ exists params_missed,
         _build_query_params_missed Sample.service (Some (Cases.filter None))
           (Sample.request (Some 42) LoadAdvertsDirection.Next) = Ok params_missed
         /\ params_pagination !! "city" = params_missed !! "city".
Proof.
  run Hp. run Hm.
  refine (pagination_and_missed_agree Sample.service _ _ _ _ "city" Hp Hm _ _ _);
    discriminate.
Defined.

Lemma expand_types_NoDup_witness : NoDup (expand_types [3; 1]).
Proof.
  apply expand_types_NoDup. apply NoDup_cons. split.
  - rewrite list_elem_of_singleton. lia.
  - apply NoDup_singleton.
Defined.

Lemma fetch_raises_only_ApiException_witness :
  exists e,
    get_missed Sample.service Sample.times_out None
      (Sample.request None LoadAdvertsDirection.Latest) = Raise e
    /\ (e = ApiException "External listings API timeout"
        \/ e = ApiException "Internal error in listings service").
Proof.
  eexists.
  refine ((fun Hr =>
             conj Hr (fetch_raises_only_ApiException Sample.service Sample.times_out
                        None _ _ (or_intror Hr))) _).
  reflexivity.
Defined.

Lemma ok_status_returns_body_witness :
  let body := Sample.listing [("total", PInt 7)] in
  exists params,
    _build_query_params_missed Sample.service (Some (Cases.filter None))
      (Sample.request (Some 42) LoadAdvertsDirection.Next) = Ok params
    /\ get_missed Sample.service (Sample.answers 200 body) (Some (Cases.filter None))
         (Sample.request (Some 42) LoadAdvertsDirection.Next)
       = Ok (PInt 7).
Proof.
  intros body. run Hb.
  exact (proj2 (ok_status_returns_body Sample.service (Sample.answers 200 body) _ _)
           _ _ Hb eq_refl eq_refl).
Defined.

Lemma request_failure_is_empty_witness :
  exists params,
    _build_query_params_pagination Sample.service (Some (Cases.filter None))
      (Sample.request None LoadAdvertsDirection.Latest) = Ok params
    /\ get_listings Sample.service (fun _ _ => Raise TransportError)
         (Some (Cases.filter None)) (Sample.request None LoadAdvertsDirection.Latest)
       = Ok (PList []).
Proof.
  run Hb.
  exact (proj1 (request_failure_is_empty Sample.service
                  (fun _ _ => Raise TransportError) _ _ TransportError)
           _ Hb eq_refl).
Defined.

End BuilderBlockRuns.

Section MappedFieldRuns.
#[local] Existing Instance pylib_utc.
#[local] Existing Instance pydantic_exact.

Lemma photos_at_most_one_witness :
  exists advert,
    map_listing_to_advert Sample.clock (Sample.listing Cases.dated) = Some advert
    /\ AdvertModel.photos advert = ["a"].
Proof.
  mapped_run advert Hm.
  apply (proj2 (proj2 (photos_at_most_one Sample.clock (list_to_map Cases.dated)
                         advert Hm)) "a" [PStr "b"]).
  vm_compute. reflexivity.
Defined.

Lemma source_and_type_ids_witness :
  exists advert,
    map_listing_to_advert Sample.clock (Sample.listing Cases.dated) = Some advert
    /\ AdvertModel.sourceId advert = 0
    /\ AdvertModel.typeId advert = 2.
Proof.
  mapped_run advert Hm.
  destruct (source_and_type_ids Sample.clock (list_to_map Cases.dated) advert Hm)
    as (_ & Hmissing & _ & _ & Hsale).
  split.
  - apply Hmissing. vm_compute. reflexivity.
  - apply Hsale. vm_compute. reflexivity.
Defined.

Lemma region_and_district_witness :
  exists advert,
    map_listing_to_advert Sample.clock (Sample.listing Cases.dated) = Some advert
    /\ AdvertModel.region advert = "Warszawa"
    /\ AdvertModel.district advert = Some "".
Proof.
  mapped_run advert Hm.
  destruct (region_and_district Sample.clock (list_to_map Cases.dated) advert Hm)
    as (_ & Hdistrict & Hcity & _).
  split.
  - apply Hcity; [vm_compute; reflexivity | discriminate].
  - apply Hdistrict. vm_compute. reflexivity.
Defined.

Lemma unmappable_records_witness :
  map_listing_to_advert Sample.clock (PStr "garbage") = None
  /\ map_listing_to_advert Sample.clock
       (Sample.listing [("id", PInt 7); ("photos_urls", PInt 5)]) = None.
Proof.
  split.
  - apply unmappable_records. left. discriminate.
  - apply unmappable_records. right; right.
    exists (list_to_map [("id", PInt 7); ("photos_urls", PInt 5)]), (PInt 5).
    split; [reflexivity|]. split; [vm_compute; reflexivity|].
    split; [reflexivity|]. split; discriminate.
Defined.

Lemma unparsable_date_is_now_witness :
  _parse_datetime Sample.noon (PStr "yesterday") = Sample.noon
  /\ _parse_datetime Sample.noon (PInt 1704067200) = Sample.noon.
Proof.
  split.
  - apply unparsable_date_is_now. right. intros fmt Hfmt.
    unfold formats in Hfmt. rewrite !elem_of_cons, elem_of_nil in Hfmt.
    destruct Hfmt as [-> | [-> | [-> | [-> | []]]]]; vm_compute; reflexivity.
  - apply unparsable_date_is_now. left. discriminate.
Defined.

Lemma first_format_wins_witness :
  _parse_datetime Sample.noon (PStr "2024-01-01")
  = {| year := 2024; month := 1; day := 1;
       hour := 0; minute := 0; second := 0; microsecond := 0 |}.
Proof.
  apply (first_format_wins Sample.noon "2024-01-01"
           ["%Y-%m-%dT%H:%M:%S.%fZ"; "%Y-%m-%dT%H:%M:%SZ"; "%Y-%m-%d %H:%M:%S"]
           "%Y-%m-%d" []).
  - reflexivity.
  - discriminate.
  - intros f Hf. rewrite !elem_of_cons, elem_of_nil in Hf.
    destruct Hf as [-> | [-> | [-> | []]]]; vm_compute; reflexivity.
  - vm_compute. reflexivity.
Defined.

Lemma valid_to_is_parsed_witness :
  exists advert,
    map_listing_to_advert Sample.clock (Sample.listing Cases.dated) = Some advert
    /\ AdvertModel.validTo advert = Some 1706781600000.
Proof.
  mapped_run advert Hm.
  destruct (valid_to_is_parsed Sample.clock (list_to_map Cases.dated)
              (PStr "2024-02-01 10:00:00")
              {| year := 2024; month := 2; day := 1;
                 hour := 10; minute := 0; second := 0; microsecond := 0 |}
              advert) as (ms & Hms & Hv).
  - vm_compute. reflexivity.
  - reflexivity.
  - vm_compute. reflexivity.
  - exact Hm.
  - vm_compute in Hms. injection Hms as <-. exact Hv.
Defined.

Lemma mapped_page_bounds_witness :
  let client := Sample.answers 200 (Sample.listing [("items", PList Sample.page)]) in
  let filter := Some (Sample.filter (Some [2]) false None None) in
  let request := Sample.request None LoadAdvertsDirection.Latest in
  (length (get_listings_mapped Sample.service client (fun _ => Sample.clock)
             filter request) <= length Sample.page)%nat
  /\ get_listings_mapped Sample.service
       (Sample.answers 200 (Sample.listing [("items", PStr "none")]))
       (fun _ => Sample.clock) filter request = [].
Proof.
  intros client filter request. split.
  - apply (proj2 (proj2 (mapped_page_bounds Sample.service client
                           (fun _ => Sample.clock) _ _)) Sample.page).
    vm_compute. reflexivity.
  - apply (proj1 (proj2 (mapped_page_bounds Sample.service _
                           (fun _ => Sample.clock) _ _)) (PStr "none")).
    + vm_compute. reflexivity.
    + discriminate.
Defined.

End MappedFieldRuns.

Section DistrictCacheRuns.

Lemma districts_loaded_once_witness :
  (DistrictMappingService.get_district_names Cases.session
     (DistrictMappingService.get_district_names Cases.down
        DistrictMappingService.init [11]).2 [11; 12]).1 = [].
Proof.
  exact (proj2 (proj2 (districts_loaded_once Cases.down DistrictMappingService.init
                         [11]))
           SQLAlchemyError Cases.session [11; 12] eq_refl eq_refl eq_refl).
Defined.

Lemma district_name_is_last_row_witness :
  (get_district_name Cases.session DistrictMappingService.init 11).1 = Some "Ochota".
Proof.
  exact (district_name_is_last_row Cases.session Cases.districts 11 eq_refl).
Defined.

Lemma district_names_resolved_witness :
  "Ochota" ≠ ""
  /\ exists district_id,
       district_id ∈ [11; 12; 13]
       /\ (get_district_name Cases.session DistrictMappingService.init
             district_id).1 = Some "Ochota".
Proof.
  apply (proj2 (district_names_resolved Cases.session DistrictMappingService.init
                  [11; 12; 13]) "Ochota").
  apply list_elem_of_In. vm_compute. left. reflexivity.
Defined.

(** The names of the sample table: the empty name of district 12 is left
    out and district 13 is not in the table. *)
Example district_names_run :
  (DistrictMappingService.get_district_names Cases.session
     DistrictMappingService.init [11; 12; 13]).1 = ["Ochota"].
Proof. vm_compute. reflexivity. Qed.

Lemma refresh_replaces_names_witness :
  let loaded := refresh_cache Cases.session DistrictMappingService.init in
  (get_district_name Cases.session (refresh_cache Cases.down loaded) 11).1 = None
  /\ (get_distincts_api_models Cases.session (refresh_cache Cases.down loaded)).1
     = DistrictMappingService._api_models loaded.
Proof.
  intros loaded.
  exact (proj2 (refresh_replaces_names Cases.down Cases.session loaded 11)
           SQLAlchemyError eq_refl).
Defined.

End DistrictCacheRuns.

Section StoredFilterRuns.
#[local] Existing Instance pylib_utc.
#[local] Existing Instance pydantic_exact.

Lemma area_to_is_not_validated_witness :
  SaveFilterRequest.ThrowIfInvalid
    (Sample.filter (Some [2]) false None
       (Some {| RangeModel.from_ := Some 20; RangeModel.to := Some (-5) |}))
  = SaveFilterRequest.ThrowIfInvalid
      (Sample.filter (Some [2]) false None
         (Some {| RangeModel.from_ := Some 20; RangeModel.to := Some 60 |})).
Proof.
  exact (area_to_is_not_validated
           (Sample.filter (Some [2]) false None
              (Some {| RangeModel.from_ := Some 20; RangeModel.to := Some 60 |}))
           {| RangeModel.from_ := Some 20; RangeModel.to := Some 60 |}
           (Some (-5)) eq_refl).
Defined.

(** A filter whose area ends below 0 and whose country id is negative
    passes; a filter with the type id 0 does not. *)
Example filter_validation_run :
  SaveFilterRequest.ThrowIfInvalid
    {| FilterModel.CountryId := -1; FilterModel.RegionId := 5;
       FilterModel.Districts := None; FilterModel.Types := None;
       FilterModel.Rooms := None; FilterModel.Agency := false;
       FilterModel.Area :=
         Some {| RangeModel.from_ := Some 20; RangeModel.to := Some (-5) |};
       FilterModel.Price := None |} = Passes
  /\ SaveFilterRequest.ThrowIfInvalid (Sample.filter (Some [2; 0]) false None None)
     = Throws (custom_exceptions.required_parameter
                 "Types item value is invalid range").
Proof. split; reflexivity. Qed.

Lemma stored_filter_sends_bounds_witness :
  exists params,
    _build_query_filters Sample.service (Some (Cases.stored [2]))
      (Sample.request None LoadAdvertsDirection.Latest) = Ok params
    /\ params !! "min_price" = Some (PInt 1000)
    /\ params !! "max_price" = Some (PInt 3000)
    /\ params !! "min_area" = Some (PInt 0)
    /\ params !! "max_area" = Some (PInt 2147483647).
Proof.
  run Hb.
  refine (stored_filter_sends_bounds Sample.service
            (fun _ => Ok (Some (Cases.row (PList [PInt 2])))) "guid"
            (Cases.row (PList [PInt 2])) (Cases.stored [2]) _ _ _ _ _ _
            eq_refl _ _ _ _ _ (or_introl Hb));
    vm_compute; reflexivity.
Defined.

Lemma stored_filter_without_types_fails_witness :
  DbFilter.Read (fun _ => Ok (Some (Cases.row PNone))) "guid" = Ok (Cases.stored [])
  /\ get_listings Sample.service (Sample.answers 200 (PDict ∅))
       (Some (Cases.stored [])) (Sample.request None LoadAdvertsDirection.Latest)
     = Raise (ApiException "Internal error in listings service").
Proof.
  assert (Hread : DbFilter.Read (fun _ => Ok (Some (Cases.row PNone))) "guid"
                  = Ok (Cases.stored [])) by (vm_compute; reflexivity).
  split; [exact Hread|].
  refine (proj2 (stored_filter_without_types_fails Sample.service _
                   (fun _ => Ok (Some (Cases.row PNone))) "guid" (Cases.row PNone)
                   (Cases.stored []) _ eq_refl _ Hread)).
  vm_compute. reflexivity.
Defined.

End StoredFilterRuns.
